(** * Traffic Portal: profile service, profile detail form and core routes

    A shallow embedding of
    - [ProfileService] (the typed wrapper around the [profiles] REST
      resource),
    - [ProfileDetailComponent] (the add/edit form controller), and
    - the [ROUTES] table of the core module,
    together with the ECMAScript built-ins the form controller applies to
    its route parameter ([parseInt], [Number], [Number.isNaN], [String]).

    Effects (HTTP requests, the header title channel, the console, the
    dialog, the router and the DOM event) are recorded in a trace that is
    threaded, with the component's fields, through a small state and
    exception monad. *)

From Stdlib Require Import ZArith NArith List Bool Lia.
From Stdlib Require Import Strings.String Strings.Ascii.
From Stdlib Require Import Numbers.DecimalString Numbers.DecimalPos
  Numbers.DecimalN.
Import ListNotations.

Open Scope string_scope.

(* ===================================================================== *)
(** ** ECMAScript built-ins used by the controller *)
(* ===================================================================== *)

Module JS.

(** A Number value: NaN, an infinity, or a finite binary64 value written
    as the exact decimal [(-1)^neg * m * 10^e].  The conversions below
    produce finite values in one form only: an integer as [Dec neg v 0],
    any other value [q * 2^p] ([q] odd, [p < 0]) as
    [Dec neg (q * 5^(-p)) p].  [Dec true 0 0] is the negative zero. *)
Inductive Num : Type :=
| NaN
| Inf (neg : bool)
| Dec (neg : bool) (m : N) (e : Z).

Definition digitsOfN (n : N) : string :=
  NilEmpty.string_of_uint (N.to_uint n).

(** 2^53: below it every integer is a binary64 value. *)
Definition maxSafe : N := 9007199254740992.

(** [q + r/d] rounded to the nearest integer, ties to even. *)
Definition roundHalfEven (q r d : N) : N :=
  match (2 * r ?= d)%N with
  | Lt => q
  | Gt => (q + 1)%N
  | Eq => if N.even q then q else (q + 1)%N
  end.

(** The integer part of the binary logarithm of [num / den]. *)
Definition log2Ratio (num den : N) : Z :=
  let lg := (Z.of_N (N.log2 num) - Z.of_N (N.log2 den))%Z in
  let reached :=
    if (0 <=? lg)%Z then (N.shiftl den (Z.to_N lg) <=? num)%N
    else (den <=? N.shiftl num (Z.to_N (- lg)))%N in
  if reached then lg else (lg - 1)%Z.

(** How many times 2 divides [q]. *)
Fixpoint twoAdic (q : positive) : N :=
  match q with
  | xO q' => N.succ (twoAdic q')
  | _ => 0%N
  end.

(** The value [q * 2^p] in the form described at [Num]. *)
Definition canon (neg : bool) (q : N) (p : Z) : Num :=
  match q with
  | N0 => Dec neg 0 0
  | Npos q' =>
      if (0 <=? p)%Z then Dec neg (N.shiftl q (Z.to_N p)) 0
      else
        let s := N.min (twoAdic q') (Z.to_N (- p)) in
        let q1 := N.shiftr q s in
        let p1 := (p + Z.of_N s)%Z in
        if (p1 =? 0)%Z then Dec neg q1 0
        else Dec neg (q1 * 5 ^ Z.to_N (- p1)) p1
  end.

(** The binary64 value nearest to [m * 10^e], ties to even: 53 bits of
    significand, exponents down to the subnormal 2^-1074, and infinity
    from 2^1024 on.  An integer below 2^53 is its own value; values beyond
    10^310 or below 10^-330 are settled without computing them. *)
Definition toDouble (neg : bool) (m : N) (e : Z) : Num :=
  if (m =? 0)%N then Dec neg 0 0
  else if ((e =? 0)%Z && (m <? maxSafe)%N) then Dec neg m 0
  else
    let D := Z.of_nat (String.length (digitsOfN m)) in
    if (310 <? D + e)%Z then Inf neg
    else if (D + e <? -330)%Z then Dec neg 0 0
    else
      let num := if (0 <=? e)%Z then (m * 10 ^ Z.to_N e)%N else m in
      let den := if (0 <=? e)%Z then 1%N else (10 ^ Z.to_N (- e))%N in
      let p := Z.max (log2Ratio num den - 52) (-1074) in
      let num' := if (p <? 0)%Z then N.shiftl num (Z.to_N (- p)) else num in
      let den' := if (p <? 0)%Z then den else N.shiftl den (Z.to_N p) in
      let '(q, r) := N.div_eucl num' den' in
      let q' := roundHalfEven q r den' in
      if ((0 <=? p)%Z && (N.shiftl 1 1024 <=? N.shiftl q' (Z.to_N p))%N)
      then Inf neg
      else canon neg q' p.

(** An integer received as a JSON number or written as a literal. *)
Definition ofZ (z : Z) : Num := toDouble (z <? 0)%Z (Z.abs_N z) 0.

Definition Number_isNaN (x : Num) : bool :=
  match x with NaN => true | _ => false end.

(** Code units are the 8-bit characters of [string]; the white space and
    line terminators among them are TAB, LF, VT, FF, CR, SP and NBSP. *)
Definition isWhiteSpace (c : ascii) : bool :=
  let n := N_of_ascii c in
  (((9 <=? n) && (n <=? 13)) || (n =? 32) || (n =? 160))%N.

Fixpoint trimStart (s : string) : string :=
  match s with
  | EmptyString => EmptyString
  | String c r => if isWhiteSpace c then trimStart r else s
  end.

Fixpoint trimEnd (s : string) : string :=
  match s with
  | EmptyString => EmptyString
  | String c r =>
      match trimEnd r with
      | EmptyString => if isWhiteSpace c then EmptyString
                       else String c EmptyString
      | r' => String c r'
      end
  end.

Definition trim (s : string) : string := trimEnd (trimStart s).

(** The value of a character as a digit: 0-9, then a-z and A-Z for
    10..35. *)
Definition digitValue (c : ascii) : option N :=
  let n := N_of_ascii c in
  if ((48 <=? n) && (n <=? 57))%N then Some (n - 48)%N
  else if ((97 <=? n) && (n <=? 122))%N then Some (n - 87)%N
  else if ((65 <=? n) && (n <=? 90))%N then Some (n - 55)%N
  else None.

Definition radixDigit (R : N) (c : ascii) : option N :=
  match digitValue c with
  | Some d => if (d <? R)%N then Some d else None
  | None => None
  end.

(** [scanDigits R acc s] reads the longest prefix of [s] made of
    radix-[R] digits: the number of digits read, their value (continuing
    from [acc]) and the rest of [s]. *)
Fixpoint scanDigits (R : N) (acc : N) (s : string) : nat * N * string :=
  match s with
  | EmptyString => (O, acc, EmptyString)
  | String c r =>
      match radixDigit R c with
      | Some d =>
          let '(k, v, rest) := scanDigits R (acc * R + d)%N r in
          (S k, v, rest)
      | None => (O, acc, s)
      end
  end.

Definition stripSign (s : string) : bool * string :=
  match s with
  | String "-" r => (true, r)
  | String "+" r => (false, r)
  | _ => (false, s)
  end.

Definition hexPrefixed (s : string) : option string :=
  match s with
  | String "0" (String "x" r) => Some r
  | String "0" (String "X" r) => Some r
  | _ => None
  end.

(** [parseInt(string, radix)]; [radix = 0] stands for an absent
    radix. *)
Definition parseInt (s : string) (radix : Z) : Num :=
  let '(neg, s1) := stripSign (trimStart s) in
  if ((radix =? 0) || ((2 <=? radix) && (radix <=? 36)))%Z then
    let stripPrefix := ((radix =? 0) || (radix =? 16))%Z in
    let R0 := if (radix =? 0)%Z then 10%N else Z.to_N radix in
    let '(R, s2) :=
      match (if stripPrefix then hexPrefixed s1 else None) with
      | Some r => (16%N, r)
      | None => (R0, s1)
      end in
    let '(k, v, _) := scanDigits R 0 s2 in
    match k with
    | O => NaN
    | S _ => toDouble neg v 0
    end
  else NaN.

(** *** [Number(string)]: the StringNumericLiteral grammar *)

Definition nonDecimalPrefixed (s : string) : option (N * string) :=
  match s with
  | String "0" (String c r) =>
      if ((c =? "x") || (c =? "X"))%char then Some (16%N, r)
      else if ((c =? "o") || (c =? "O"))%char then Some (8%N, r)
      else if ((c =? "b") || (c =? "B"))%char then Some (2%N, r)
      else None
  | _ => None
  end.

(** ExponentPart, optional: [None] when an exponent indicator is there
    but malformed or followed by anything else. *)
Definition exponentPart (s : string) : option Z :=
  match s with
  | EmptyString => Some 0%Z
  | String c r =>
      if ((c =? "e") || (c =? "E"))%char then
        let '(neg, r1) := stripSign r in
        match scanDigits 10 0 r1 with
        | (S _, v, EmptyString) =>
            Some (if neg then (- Z.of_N v)%Z else Z.of_N v)
        | _ => None
        end
      else None
  end.

(** StrUnsignedDecimalLiteral other than [Infinity]:
    [digits . digits? exp?], [. digits exp?] or [digits exp?]. *)
Definition unsignedDecimal (neg : bool) (s : string) : Num :=
  let '(k1, v1, r1) := scanDigits 10 0 s in
  let '(k2, v2, r2) :=
    match r1 with
    | String "." r => scanDigits 10 v1 r
    | _ => (O, v1, r1)
    end in
  match (k1 + k2)%nat with
  | O => NaN
  | S _ =>
      match exponentPart r2 with
      | Some x => toDouble neg v2 (x - Z.of_nat k2)
      | None => NaN
      end
  end.

Definition strDecimalLiteral (s : string) : Num :=
  let '(neg, r) := stripSign s in
  if (r =? "Infinity")%string then Inf neg else unsignedDecimal neg r.

Definition Number (s : string) : Num :=
  let t := trim s in
  match t with
  | EmptyString => Dec false 0 0
  | _ =>
      match nonDecimalPrefixed t with
      | Some (R, r) =>
          match scanDigits R 0 r with
          | (S _, v, EmptyString) => toDouble false v 0
          | _ => NaN
          end
      | None => strDecimalLiteral t
      end
  end.

(** *** [String(number)]: Number::toString in radix 10 *)

Fixpoint zeros (n : nat) : string :=
  match n with
  | O => EmptyString
  | S k => String "0" (zeros k)
  end.

(** The digits of [ds] without its trailing zeros. *)
Fixpoint dropTrailingZeros (ds : string) : string :=
  match ds with
  | EmptyString => EmptyString
  | String c r =>
      match dropTrailingZeros r with
      | EmptyString => if (c =? "0")%char then EmptyString
                       else String c EmptyString
      | r' => String c r'
      end
  end.

Definition signedExponent (x : Z) : string :=
  ((if (x <? 0)%Z then "-" else "+") ++ digitsOfN (Z.abs_N x))%string.

(** With [s] the [k] significant digits and [n] the position of the
    decimal point ([value = 0.s * 10^n]), the five layouts of
    Number::toString. *)
Definition layoutDigits (s : string) (n : Z) : string :=
  let k := Z.of_nat (String.length s) in
  (if ((k <=? n) && (n <=? 21))%Z then
     s ++ zeros (Z.to_nat (n - k))
   else if ((0 <? n) && (n <=? 21))%Z then
     substring 0 (Z.to_nat n) s ++ "."
       ++ substring (Z.to_nat n) (Z.to_nat (k - n)) s
   else if ((-6 <? n) && (n <=? 0))%Z then
     "0." ++ zeros (Z.to_nat (- n)) ++ s
   else if (k =? 1)%Z then
     s ++ "e" ++ signedExponent (n - 1)
   else
     substring 0 1 s ++ "." ++ substring 1 (Z.to_nat (k - 1)) s
       ++ "e" ++ signedExponent (n - 1))%string.

Definition sameNum (x y : Num) : bool :=
  match x, y with
  | Dec n1 m1 e1, Dec n2 m2 e2 =>
      Bool.eqb n1 n2 && (m1 =? m2)%N && (e1 =? e2)%Z
  | Inf n1, Inf n2 => Bool.eqb n1 n2
  | NaN, NaN => true
  | _, _ => false
  end.

(** The fewest digits that denote the positive value [x = m * 10^e] ([m]
    of [D] digits): for [k = 1, 2, ..] the two [k]-digit decimals around
    [x] are tried, and the first that is read back as [x] is taken, the
    nearer of the two when both are, the even one on a tie.  The result
    [(s, e')] stands for [s * 10^e']. *)
Fixpoint shortest (fuel : nat) (k : N) (x : Num) (m : N) (e : Z) (D : N)
  : N * Z :=
  match fuel with
  | O => (m, e)
  | S fuel' =>
      if (D <=? k)%N then (m, e)
      else
        let cut := (10 ^ (D - k))%N in
        let e' := (e + Z.of_N (D - k))%Z in
        let '(lo, r) := N.div_eucl m cut in
        let hi := (lo + 1)%N in
        match sameNum (toDouble false lo e') x,
              sameNum (toDouble false hi e') x with
        | true, true => (roundHalfEven lo r cut, e')
        | true, false => (lo, e')
        | false, true => (hi, e')
        | false, false => shortest fuel' (k + 1)%N x m e D
        end
  end.

(** The digits and the layout of a positive value; 17 digits tell any
    two binary64 values apart. *)
Definition shortestLayout (m : N) (e : Z) : string :=
  let '(s, e') :=
    shortest 17 1 (Dec false m e) m e
      (N.of_nat (String.length (digitsOfN m))) in
  let ds := digitsOfN s in
  layoutDigits (dropTrailingZeros ds) (Z.of_nat (String.length ds) + e').

(** [String(x)].  An integer below 2^53 is printed as its digits, which
    are the fewest that denote it. *)
Definition String_of_number (x : Num) : string :=
  match x with
  | NaN => "NaN"
  | Inf neg => if neg then "-Infinity" else "Infinity"
  | Dec neg m e =>
      match toDouble neg m e with
      | NaN => "NaN"
      | Inf neg' => if neg' then "-Infinity" else "Infinity"
      | Dec neg' m' e' =>
          if (m' =? 0)%N then "0"
          else
            ((if neg' then "-" else "")
               ++ (if ((e' =? 0)%Z && (m' <? maxSafe)%N) then digitsOfN m'
                   else shortestLayout m' e'))%string
      end
  end.

End JS.

(* ===================================================================== *)
(** ** Data transfer objects *)
(* ===================================================================== *)

(** The profile types offered by the form's [types] list. *)
Inductive ProfileType : Type :=
| ATS_PROFILE | TR_PROFILE | TM_PROFILE | TS_PROFILE | TP_PROFILE
| INFLUXDB_PROFILE | RIAK_PROFILE | SPLUNK_PROFILE | DS_PROFILE
| ORG_PROFILE | KAFKA_PROFILE | LOGSTASH_PROFILE | ES_PROFILE
| UNK_PROFILE | GROVE_PROFILE.

(** [ResponseProfile], with the fields the controller writes.  Identifiers
    are integers; [lastUpdated] is a point in time. *)
Record ResponseProfile : Type := mkProfile {
  cdn : Z;
  cdnName : string;
  description : string;
  id : Z;
  lastUpdated : Z;
  name : string;
  routingDisabled : bool;
  type : ProfileType
}.

(** Modelled from the spec: [ResponseCDN] is declared outside the sources at
    hand; the spec describes the DTOs as plain attribute bags with an id
    and a name, and the controller only stores the list. *)
Record ResponseCDN : Type := mkCDN {
  cdn_id : Z;
  cdn_name : string
}.

(* ===================================================================== *)
(** ** Effects *)
(* ===================================================================== *)

Inductive Method : Type := GET | POST | PUT | DELETE.

Record Request : Type := mkRequest {
  method : Method;
  url : string;
  params : list (string * string);
  body : option ResponseProfile
}.

(** What a promise can be rejected with, or a statement can throw. *)
Inductive Exn : Type :=
| Error (message : string)           (* [throw new Error(message)] *)
| TypeError (property : string)      (* reading [property] of [undefined] *)
| HttpErrorResponse (status : N).    (* a request the server did not accept *)

(** The observable actions, in the order they happen. *)
Inductive Event : Type :=
| Http (rq : Request)
| HeaderTitle (title : string)               (* navSvc.headerTitle.next *)
| ConsoleError (message : string)            (* console.error *)
| DialogOpen (title message : string)        (* dialog.open(DecisionDialogComponent, ..) *)
| Navigate (commands : list string)          (* router.navigate *)
| PreventDefault (e : nat)                   (* e.preventDefault() *)
| StopPropagation (e : nat)                  (* e.stopPropagation() *)
| UnhandledRejection (reason : Exn).

Inductive Response (T : Type) : Type :=
| Success (payload : T)
| Failure (status : N).
Arguments Success {T} payload.
Arguments Failure {T} status.

(** What a request is answered with, as the caller of the API service
    sees it; one function per payload shape the services expect.  The
    answers are a function of the request: no method here sends the same
    request twice. *)
Record Backend : Type := mkBackend {
  profilesOf : Request -> Response (list ResponseProfile);
  profileOf : Request -> Response ResponseProfile;
  cdnsOf : Request -> Response (list ResponseCDN)
}.

(** The fields of [ProfileDetailComponent].  [profile] and [cdns] are
    declared with [!] and hold [undefined] until assigned. *)
Record Component : Type := mkComponent {
  new : bool;
  profile : option ResponseProfile;
  cdns : option (list ResponseCDN)
}.

(** What the controller is injected with and reads from. *)
Record Env : Type := mkEnv {
  paramMap : list (string * string);   (* route.snapshot.paramMap *)
  now : Z;                             (* the value of [new Date()] *)
  backend : Backend
}.

Record World : Type := mkWorld {
  self : Component;
  trace : list Event
}.

Inductive Result (A : Type) : Type :=
| Ok (a : A)
| Throw (e : Exn).
Arguments Ok {A} a.
Arguments Throw {A} e.

Definition M (A : Type) : Type := World -> Result A * World.

Definition ret {A} (a : A) : M A := fun w => (Ok a, w).

Definition bind {A B} (m : M A) (k : A -> M B) : M B :=
  fun w =>
    match m w with
    | (Ok a, w') => k a w'
    | (Throw e, w') => (Throw e, w')
    end.

Definition throw {A} (e : Exn) : M A := fun w => (Throw e, w).

Declare Scope js_scope.
Delimit Scope js_scope with js.
Notation "x <- m ;; k" := (bind m (fun x => k))
  (at level 61, m at next level, right associativity) : js_scope.
Notation "m ;; k" := (bind m (fun _ => k))
  (at level 61, right associativity) : js_scope.
Open Scope js_scope.

Definition emit (ev : Event) : M unit :=
  fun w => (Ok tt, mkWorld (self w) (trace w ++ [ev])).

Definition this : M Component := fun w => (Ok (self w), w).

Definition assign (f : Component -> Component) : M unit :=
  fun w => (Ok tt, mkWorld (f (self w)) (trace w)).

(** [p.then(k)] with nothing attached for the failure: the continuation
    runs when [p] is fulfilled, a rejection is left unhandled. *)
Definition then_ {A} (p : M A) (k : A -> M unit) : M unit :=
  fun w =>
    match p w with
    | (Ok a, w') => k a w'
    | (Throw e, w') => emit (UnhandledRejection e) w'
    end.

(** Reading a property of [this.profile]. *)
Definition profileField {A} (property : string) (f : ResponseProfile -> A)
  : M A :=
  c <- this ;;
  match profile c with
  | Some p => ret (f p)
  | None => throw (TypeError property)
  end.

(* ===================================================================== *)
(** ** APIService *)
(* ===================================================================== *)

(** Modelled from the spec: the base class [APIService] is not among the
    sources; the spec describes its verbs as a pass-through with no retry,
    caching or pagination: one request is sent, the result is the server's
    response, and a failure is whatever the HTTP client surfaces.  The
    event [Http] records the verb called and its arguments. *)
Definition request {T} (serve : Request -> Response T) (rq : Request) : M T :=
  emit (Http rq) ;;
  match serve rq with
  | Success t => ret t
  | Failure status => throw (HttpErrorResponse status)
  end.

Module APIService.
Definition get {T} (serve : Request -> Response T)
    (path : string) (params : list (string * string)) : M T :=
  request serve (mkRequest GET path params None).

Definition post {T} (serve : Request -> Response T)
    (path : string) (data : option ResponseProfile) : M T :=
  request serve (mkRequest POST path [] data).

Definition put {T} (serve : Request -> Response T)
    (path : string) (data : option ResponseProfile) : M T :=
  request serve (mkRequest PUT path [] data).

Definition delete {T} (serve : Request -> Response T)
    (path : string) : M T :=
  request serve (mkRequest DELETE path [] None).
End APIService.

(** Modelled from the spec: [CDNService.getCDNs] is not among the sources;
    the spec lists the CDN routes as analogous to the profile ones, so it is
    the GET of the whole collection. *)
Definition getCDNs (b : Backend) : M (list ResponseCDN) :=
  APIService.get (cdnsOf b) "cdns" [].

(* ===================================================================== *)
(** ** ProfileService *)
(* ===================================================================== *)

Module ProfileService.

(** [getProfiles(idOrName?)]: with an argument, the first element of
    the response array ([r[0]], which is [undefined], here [None], when
    the array is empty); without, the whole array. *)
Definition getProfiles (b : Backend) (idOrName : option (JS.Num + string))
  : M (list ResponseProfile + option ResponseProfile) :=
  let path := "profiles" in
  match idOrName with
  | Some a =>
      let params :=
        match a with
        | inl n => [("id", JS.String_of_number n)]
        | inr s => [("name", s)]
        end in
      r <- APIService.get (profilesOf b) path params ;;
      ret (inr (nth_error r 0))
  | None =>
      r <- APIService.get (profilesOf b) path [] ;;
      ret (inl r)
  end.

(** The two overload signatures, as typed views of the implementation:
    [getProfiles(idOrName: number | string): Promise<ResponseProfile>]
    and [getProfiles(): Promise<Array<ResponseProfile>>]. *)
Definition getProfiles_one (b : Backend) (idOrName : JS.Num + string)
  : M (option ResponseProfile) :=
  r <- getProfiles b (Some idOrName) ;;
  ret (match r with inr p => p | inl _ => None end).

Definition getProfiles_all (b : Backend) : M (list ResponseProfile) :=
  r <- getProfiles b None ;;
  ret (match r with inl l => l | inr _ => [] end).

(** The argument of [createProfile] and [updateProfile] is the
    controller's [this.profile], a field declared with [!]: a profile, or
    [undefined] ([None]) while nothing has been assigned to it. *)
Definition createProfile (b : Backend) (profile : option ResponseProfile)
  : M ResponseProfile :=
  APIService.post (profileOf b) "profiles" profile.

Definition updateProfile (b : Backend) (profile : option ResponseProfile)
  : M ResponseProfile :=
  match profile with
  | None => throw (TypeError "id")
  | Some p =>
      let path := "profiles/" ++ JS.String_of_number (JS.ofZ (id p)) in
      APIService.put (profileOf b) path profile
  end.

Definition deleteProfile (b : Backend) (profileId : Z + ResponseProfile)
  : M ResponseProfile :=
  let id := match profileId with inl n => n | inr p => id p end in
  APIService.delete (profileOf b)
    ("profiles/" ++ JS.String_of_number (JS.ofZ id)).

End ProfileService.

(* ===================================================================== *)
(** ** ProfileDetailComponent *)
(* ===================================================================== *)

(** [paramMap.get(name)]: the first value under [name], or [null]. *)
Fixpoint paramMap_get (m : list (string * string)) (key : string)
  : option string :=
  match m with
  | [] => None
  | (k, v) :: rest => if (k =? key)%string then Some v
                      else paramMap_get rest key
  end.

Module ProfileDetailComponent.

Definition types : list ProfileType :=
  [ ATS_PROFILE; TR_PROFILE; TM_PROFILE; TS_PROFILE; TP_PROFILE;
    INFLUXDB_PROFILE; RIAK_PROFILE; SPLUNK_PROFILE; DS_PROFILE;
    ORG_PROFILE; KAFKA_PROFILE; LOGSTASH_PROFILE; ES_PROFILE;
    UNK_PROFILE; GROVE_PROFILE ].

(** The component as constructed: [new = false], nothing loaded. *)
Definition initial : Component := mkComponent false None None.

Definition set_new (v : bool) : M unit :=
  assign (fun c => mkComponent v (profile c) (cdns c)).

Definition set_profile (p : option ResponseProfile) : M unit :=
  assign (fun c => mkComponent (new c) p (cdns c)).

Definition set_cdns (l : list ResponseCDN) : M unit :=
  assign (fun c => mkComponent (new c) (profile c) (Some l)).

(** The message of the second [throw]: the template interpolates the
    object literal [{ id }], whose string conversion is
    [[object Object]]. *)
Definition nonNumberMessage : string :=
  "route parameter 'id' was non-number:  " ++ "[object Object]".

Definition ngOnInit (env : Env) : M unit :=
  l <- getCDNs (backend env) ;;
  set_cdns l ;;
  let id := paramMap_get (paramMap env) "id" in
  match id with
  | None => throw (Error "missing required route parameter 'id'")
  | Some id =>
      if (id =? "new")%string then
        set_new true ;;
        emit (HeaderTitle "New Profile") ;;
        set_profile (Some {|
          cdn := -1;
          cdnName := "";
          description := "";
          id := -1;
          lastUpdated := now env;
          name := "";
          routingDisabled := false;
          type := ATS_PROFILE
        |})
      else
        let numID := JS.parseInt id 10 in
        if JS.Number_isNaN numID then
          throw (Error nonNumberMessage)
        else
          p <- ProfileService.getProfiles_one (backend env)
                 (inl (JS.Number id)) ;;
          set_profile p ;;
          n <- profileField "name" name ;;
          emit (HeaderTitle ("Profile: " ++ n))
  end.

(** [submit(e)]; [e] names the form submission event. *)
Definition submit (env : Env) (e : nat) : M unit :=
  emit (PreventDefault e) ;;
  emit (StopPropagation e) ;;
  c <- this ;;
  if new c then
    r <- ProfileService.createProfile (backend env) (profile c) ;;
    set_profile (Some r) ;;
    set_new false
  else
    r <- ProfileService.updateProfile (backend env) (profile c) ;;
    set_profile (Some r).

(** The subscriber of [ref.afterClosed()]: [result] is what the dialog
    closed with ([None] for [undefined]). *)
Definition truthy (result : option bool) : bool :=
  match result with Some true => true | _ => false end.

Definition afterClosed (env : Env) (result : option bool) : M unit :=
  if truthy result then
    i <- profileField "id" id ;;
    then_ (ProfileService.deleteProfile (backend env) (inl i))
          (fun _ => emit (Navigate ["/core/profiles"]))
  else ret tt.

(** [deleteType()]: what it does itself, and the subscriber it leaves
    with the dialog ([None] when it returns early). *)
Definition deleteType (env : Env) : M (option (option bool -> M unit)) :=
  c <- this ;;
  if new c then
    emit (ConsoleError "Unable to delete new type") ;;
    ret None
  else
    n <- profileField "name" name ;;
    i <- profileField "id" id ;;
    emit (DialogOpen "Confirm Delete"
            ("Are you sure to delete Profile " ++ n ++ " with id "
               ++ JS.String_of_number (JS.ofZ i) ++ "?")) ;;
    ret (Some (afterClosed env)).

(** [deleteType()] followed by the dialog closing with [result]. *)
Definition deleteType_closed (env : Env) (result : option bool) : M unit :=
  k <- deleteType env ;;
  match k with
  | Some subscriber => subscriber result
  | None => ret tt
  end.

End ProfileDetailComponent.

(* ===================================================================== *)
(** ** The core module's routes *)
(* ===================================================================== *)

Inductive ComponentClass : Type :=
| DashboardComponent | AsnDetailComponent | AsnsTableComponent
| DivisionsTableComponent | DivisionDetailComponent
| RegionsTableComponent | RegionDetailComponent
| UsersComponent | UserDetailsComponent | CDNDetailComponent
| ServersTableComponent | ServerDetailsComponent
| DeliveryserviceComponent | InvalidationJobsComponent
| CurrentuserComponent | NewDeliveryServiceComponent
| CacheGroupTableComponent | CacheGroupDetailsComponent
| TenantsComponent | ChangeLogsComponent | TenantDetailsComponent
| PhysLocDetailComponent | PhysLocTableComponent
| CoordinateDetailComponent | CoordinatesTableComponent
| TypesTableComponent | TypeDetailComponent
| ISOGenerationFormComponent
| ProfileDetailComponent | ProfileTableComponent.

Inductive Guard : Type := AuthenticatedGuard.

Record Route : Type := mkRoute {
  component : ComponentClass;
  path : string;
  canActivate : list Guard
}.

(** The classes the module declares without routing to them. *)
Inductive UnroutedClass : Type :=
| UpdatePasswordDialogComponent | DsCardComponent
| NewInvalidationJobDialogComponent | UpdateStatusComponent
| UserRegistrationDialogComponent | LastDaysComponent.

Module CoreModule.

(** The [declarations] array of the [NgModule] decorator, in its order
    ([UserRegistrationDialogComponent] is listed twice). *)
Definition declarations : list (ComponentClass + UnroutedClass) :=
  [ inl UsersComponent;
    inl ServerDetailsComponent;
    inl ServersTableComponent;
    inl DeliveryserviceComponent;
    inl NewDeliveryServiceComponent;
    inl CurrentuserComponent;
    inr UpdatePasswordDialogComponent;
    inl DashboardComponent;
    inr DsCardComponent;
    inl InvalidationJobsComponent;
    inl CacheGroupTableComponent;
    inr NewInvalidationJobDialogComponent;
    inr UpdateStatusComponent;
    inl UserDetailsComponent;
    inl TenantsComponent;
    inr UserRegistrationDialogComponent;
    inl TenantDetailsComponent;
    inl ChangeLogsComponent;
    inr LastDaysComponent;
    inr UserRegistrationDialogComponent;
    inl PhysLocTableComponent;
    inl PhysLocDetailComponent;
    inl AsnsTableComponent;
    inl AsnDetailComponent;
    inl DivisionsTableComponent;
    inl DivisionDetailComponent;
    inl RegionsTableComponent;
    inl RegionDetailComponent;
    inl CacheGroupDetailsComponent;
    inl CoordinatesTableComponent;
    inl CoordinateDetailComponent;
    inl TypesTableComponent;
    inl TypeDetailComponent;
    inl ISOGenerationFormComponent;
    inl ProfileTableComponent;
    inl CDNDetailComponent;
    inl ProfileDetailComponent ].

(** The array literal, before [.map]. *)
Definition declared : list (ComponentClass * string) :=
  [ (DashboardComponent, "");
    (AsnDetailComponent, "asns/:id");
    (AsnsTableComponent, "asns");
    (DivisionsTableComponent, "divisions");
    (DivisionDetailComponent, "divisions/:id");
    (RegionsTableComponent, "regions");
    (RegionDetailComponent, "regions/:id");
    (UsersComponent, "users");
    (UserDetailsComponent, "users/:id");
    (CDNDetailComponent, "cdns/:id");
    (ServersTableComponent, "servers");
    (ServerDetailsComponent, "servers/:id");
    (DeliveryserviceComponent, "deliveryservice/:id");
    (InvalidationJobsComponent, "deliveryservice/:id/invalidation-jobs");
    (CurrentuserComponent, "me");
    (NewDeliveryServiceComponent, "new.Delivery.Service");
    (CacheGroupTableComponent, "cache-groups");
    (CacheGroupDetailsComponent, "cache-groups/:id");
    (TenantsComponent, "tenants");
    (ChangeLogsComponent, "change-logs");
    (TenantDetailsComponent, "tenants/:id");
    (PhysLocDetailComponent, "phys-locs/:id");
    (PhysLocTableComponent, "phys-locs");
    (CoordinateDetailComponent, "coordinates/:id");
    (CoordinatesTableComponent, "coordinates");
    (TypesTableComponent, "types");
    (TypeDetailComponent, "types/:id");
    (ISOGenerationFormComponent, "iso-gen");
    (ProfileDetailComponent, "profiles/:id");
    (ProfileTableComponent, "profiles") ].

Definition ROUTES : list Route :=
  map (fun r => mkRoute (fst r) (snd r) [AuthenticatedGuard]) declared.

(** The entry of the table whose [path] is [p]. *)
Definition routeAt (p : string) : option Route :=
  find (fun r => (path r =? p)%string) ROUTES.

End CoreModule.

(* ===================================================================== *)
(** ** Vocabulary of the statements *)
(* ===================================================================== *)

(** The result of a request, as the awaiting caller sees it. *)
Definition outcome {T} (r : Response T) : Result T :=
  match r with
  | Success t => Ok t
  | Failure status => Throw (HttpErrorResponse status)
  end.

Definition isDecimalDigit (c : ascii) : bool :=
  ((48 <=? N_of_ascii c) && (N_of_ascii c <=? 57))%N.

Fixpoint allDigits (s : string) : bool :=
  match s with
  | EmptyString => true
  | String c r => isDecimalDigit c && allDigits r
  end.

(** A numeric route parameter: one decimal digit or more. *)
Definition numericId (s : string) : bool :=
  match s with
  | EmptyString => false
  | _ => allDigits s
  end.

(** The number a string of decimal digits denotes. *)
Fixpoint decimalValue (acc : N) (s : string) : N :=
  match s with
  | EmptyString => acc
  | String c r => decimalValue (acc * 10 + (N_of_ascii c - 48))%N r
  end.

(** The route parameters [ngOnInit] refuses with one of its two [throw]
    statements. *)
Definition refused (id : option string) : Prop :=
  match id with
  | None => True
  | Some s => s <> "new" /\ JS.Number_isNaN (JS.parseInt s 10) = true
  end.

Definition isHttp (m : Method) (ev : Event) : bool :=
  match ev with
  | Http rq =>
      match method rq, m with
      | GET, GET | POST, POST | PUT, PUT | DELETE, DELETE => true
      | _, _ => false
      end
  | _ => false
  end.

Definition isNavigate (ev : Event) : bool :=
  match ev with Navigate _ => true | _ => false end.

Definition fetchesProfiles (ev : Event) : bool :=
  match ev with
  | Http rq => isHttp GET ev && (url rq =? "profiles")%string
  | _ => false
  end.

(** The flow "fetch, compare, send, then navigate" read on a list of
    events: a GET, later the PUT, later a navigation. *)
Definition fetchSendNavigate (evs : list Event) : Prop :=
  exists l1 g l2 u l3 n l4,
    evs = (l1 ++ g :: l2 ++ u :: l3 ++ n :: l4)%list
    /\ isHttp GET g = true /\ isHttp PUT u = true /\ isNavigate n = true.

(** The request [getProfiles] sends for an id or a name. *)
Definition lookup (a : JS.Num + string) : Request :=
  mkRequest GET "profiles"
    (match a with
     | inl n => [("id", JS.String_of_number n)]
     | inr s => [("name", s)]
     end) None.

(** What the confirmation dialog's closing with [result] leads to, for
    the profile [p] on the form and the server [b]. *)
Definition closing (b : Backend) (p : ResponseProfile)
    (result : option bool) : list Event :=
  let rq :=
    mkRequest DELETE ("profiles/" ++ JS.String_of_number (JS.ofZ (id p)))
      [] None in
  if ProfileDetailComponent.truthy result then
    Http rq ::
      match profileOf b rq with
      | Success _ => [Navigate ["/core/profiles"]]
      | Failure status => [UnhandledRejection (HttpErrorResponse status)]
      end
  else [].

(** An integer in decimal, as a template literal interpolates it. *)
Definition decimalOfZ (z : Z) : string :=
  ((if (z <? 0)%Z then "-" else "") ++ JS.digitsOfN (Z.abs_N z))%string.

(** Whether a string begins with a decimal digit. *)
Definition startsWithDigit (s : string) : bool :=
  match s with
  | String c _ => isDecimalDigit c
  | EmptyString => false
  end.

(** A character that can follow the digits of no numeric literal: not a
    digit, not white space, not the decimal point, not an exponent
    indicator and not the letter of a radix prefix. *)
Definition breaksNumber (c : ascii) : bool :=
  negb (isDecimalDigit c) && negb (JS.isWhiteSpace c)
  && negb (existsb (Ascii.eqb c)
             ["."; "e"; "E"; "x"; "X"; "o"; "O"; "b"; "B"]%char).

(** A request of any verb. *)
Definition isRequest (ev : Event) : bool :=
  match ev with Http _ => true | _ => false end.

(** The events of loading: a GET or a header title. *)
Definition readsOnly (ev : Event) : bool :=
  match ev with
  | Http _ => isHttp GET ev
  | HeaderTitle _ => true
  | _ => false
  end.

(** The events of deleting: the console, the dialog, a DELETE, the router
    and the report of an unhandled rejection. *)
Definition deletesOnly (ev : Event) : bool :=
  match ev with
  | Http _ => isHttp DELETE ev
  | ConsoleError _ | DialogOpen _ _ | Navigate _ | UnhandledRejection _ =>
      true
  | _ => false
  end.

(** The record [ngOnInit] starts a new profile from. *)
Definition blank (env : Env) : ResponseProfile :=
  mkProfile (-1) "" "" (-1) (now env) "" false ATS_PROFILE.

(** The claim on loading, read on one run of [ngOnInit]: the profile
    whose id is written [s] was asked for, a record is on the form, and
    its name is in the published title. *)
Definition loadsRecordOf (env : Env) (w : World) (s : string) : Prop :=
  let w' := snd (ProfileDetailComponent.ngOnInit env w) in
  In (Http (mkRequest GET "profiles" [("id", s)] None)) (trace w')
  /\ exists p,
       profile (self w') = Some p
       /\ In (HeaderTitle ("Profile: " ++ name p)) (trace w').

(** The events a run adds to the trace it started from. *)
Definition added (before : list Event) (after : World) : list Event :=
  skipn (List.length before) (trace after).

(* ===================================================================== *)
(** ** A sample server and sample components *)
(* ===================================================================== *)

Module Sample.

Definition edge : ResponseProfile :=
  mkProfile 1 "cdn1" "edge caches" 7 1700000000 "EDGE" false ATS_PROFILE.

Definition mid : ResponseProfile :=
  mkProfile 1 "cdn1" "mid caches" 8 1700000001 "MID" false ATS_PROFILE.

(** Answers a profile query with the stored profiles whose id or name
    is asked for, stores what is posted under id 9 and echoes what is
    put. *)
Definition selects (rq : Request) (p : ResponseProfile) : bool :=
  match params rq with
  | [(k, v)] =>
      if (k =? "id")%string
      then (JS.String_of_number (JS.ofZ (id p)) =? v)%string
      else (name p =? v)%string
  | _ => true
  end.

Definition server : Backend :=
  mkBackend
    (fun rq => Success (filter (selects rq) [edge; mid]))
    (fun rq =>
       match body rq with
       | Some p =>
           match method rq with
           | POST => Success (mkProfile (cdn p) (cdnName p) (description p)
                                9 1700000002 (name p) (routingDisabled p)
                                (type p))
           | _ => Success p
           end
       | None => Success edge
       end)
    (fun _ => Success [mkCDN 1 "cdn1"]).

(** A server that answers every profile query with one profile. *)
Definition generous : Backend :=
  mkBackend (fun _ => Success [edge]) (profileOf server) (cdnsOf server).

(** A server that refuses every request. *)
Definition down : Backend :=
  mkBackend (fun _ => Failure 503) (fun _ => Failure 503)
            (fun _ => Failure 503).

Definition env (id : string) : Env := mkEnv [("id", id)] 1700000003 server.

Definition envGenerous (id : string) : Env :=
  mkEnv [("id", id)] 1700000003 generous.

Definition envDown (id : string) : Env :=
  mkEnv [("id", id)] 1700000003 down.

(** The same route without its parameter. *)
Definition envNoId : Env := mkEnv [] 1700000003 server.

Definition fresh : World := mkWorld ProfileDetailComponent.initial [].

Definition draft : ResponseProfile :=
  mkProfile (-1) "" "a draft" (-1) 1700000003 "DRAFT" false ATS_PROFILE.

Definition creating : World :=
  mkWorld (mkComponent true (Some draft) (Some [mkCDN 1 "cdn1"])) [].

Definition editing : World :=
  mkWorld (mkComponent false (Some edge) (Some [mkCDN 1 "cdn1"])) [].

End Sample.

(* ===================================================================== *)
(** ** Running the monad *)
(* ===================================================================== *)

Section Runs.

Context {T : Type} (serve : Request -> Response T).

Lemma request_run (rq : Request) (c : Component) (tr : list Event) :
  request serve rq (mkWorld c tr)
  = (outcome (serve rq), mkWorld c (tr ++ [Http rq])).
Proof.
  unfold request, bind, emit. simpl.
  destruct (serve rq); reflexivity.
Qed.

Lemma get_run path ps c tr :
  APIService.get serve path ps (mkWorld c tr)
  = (outcome (serve (mkRequest GET path ps None)),
     mkWorld c (tr ++ [Http (mkRequest GET path ps None)])).
Proof. apply request_run. Qed.

Lemma post_run path data c tr :
  APIService.post serve path data (mkWorld c tr)
  = (outcome (serve (mkRequest POST path [] data)),
     mkWorld c (tr ++ [Http (mkRequest POST path [] data)])).
Proof. apply request_run. Qed.

Lemma put_run path data c tr :
  APIService.put serve path data (mkWorld c tr)
  = (outcome (serve (mkRequest PUT path [] data)),
     mkWorld c (tr ++ [Http (mkRequest PUT path [] data)])).
Proof. apply request_run. Qed.

Lemma delete_run path c tr :
  APIService.delete serve path (mkWorld c tr)
  = (outcome (serve (mkRequest DELETE path [] None)),
     mkWorld c (tr ++ [Http (mkRequest DELETE path [] None)])).
Proof. apply request_run. Qed.

End Runs.

Lemma bind_run {A B} (m : M A) (k : A -> M B) (w : World) :
  bind m k w
  = match m w with
    | (Ok a, w') => k a w'
    | (Throw e, w') => (Throw e, w')
    end.
Proof. reflexivity. Qed.

Lemma added_app (tr evs : list Event) (c : Component) :
  added tr (mkWorld c (tr ++ evs)) = evs.
Proof.
  unfold added. simpl. induction tr as [|ev tr IH]; simpl; auto.
Qed.

Lemma app_assoc1 {A} (l : list A) (a : A) (r : list A) :
  ((l ++ [a]) ++ r = l ++ a :: r)%list.
Proof. rewrite <- app_assoc. reflexivity. Qed.

Ltac run_step :=
  repeat (rewrite ?bind_run, ?get_run, ?post_run, ?put_run, ?delete_run;
          simpl).

Ltac run_done :=
  run_step; repeat rewrite <- app_assoc; simpl; try reflexivity.

(* ===================================================================== *)
(** ** ProfileService *)
(* ===================================================================== *)

Section ProfileServiceFacts.

#[local] Arguments String.append _ _ : simpl never.
#[local] Arguments JS.String_of_number _ : simpl never.

Variable b : Backend.
Variables (c : Component) (tr : list Event).

#[local] Abbreviation w := (mkWorld c tr).

Lemma getProfiles_one_run (a : JS.Num + string) :
  ProfileService.getProfiles_one b a w
  = (match profilesOf b (lookup a) with
     | Success r => Ok (nth_error r 0)
     | Failure status => Throw (HttpErrorResponse status)
     end,
     mkWorld c (tr ++ [Http (lookup a)])).
Proof.
  unfold ProfileService.getProfiles_one, ProfileService.getProfiles.
  run_step. fold (lookup a).
  destruct (profilesOf b (lookup a)); reflexivity.
Qed.

(** C9.  Given a number or a string, [getProfiles] returns the first
    element of the array the server answers with: a profile when the
    array is not empty, and [undefined] when it is empty. *)
Theorem getProfiles_first_element (a : JS.Num + string)
    (r : list ResponseProfile) :
  profilesOf b (lookup a) = Success r ->
  fst (ProfileService.getProfiles_one b a w) = Ok (nth_error r 0)
  /\ (r = [] -> fst (ProfileService.getProfiles_one b a w) = Ok None)
  /\ (forall p rest, r = p :: rest ->
        fst (ProfileService.getProfiles_one b a w) = Ok (Some p)).
Proof.
  intros Hr. rewrite getProfiles_one_run, Hr. simpl.
  repeat split; intros; subst; reflexivity.
Qed.

End ProfileServiceFacts.

(* ===================================================================== *)
(** ** ProfileDetailComponent: submit and deleteType *)
(* ===================================================================== *)

Import ProfileDetailComponent.

Lemma profileField_run {A} (property : string) (f : ResponseProfile -> A)
    (c : Component) (tr : list Event) :
  profileField property f (mkWorld c tr)
  = (match profile c with
     | Some p => Ok (f p)
     | None => Throw (TypeError property)
     end, mkWorld c tr).
Proof.
  unfold profileField, this. rewrite bind_run. simpl.
  destruct (profile c); reflexivity.
Qed.

Section Submit.

#[local] Arguments String.append _ _ : simpl never.
#[local] Arguments JS.String_of_number _ : simpl never.

Variables (env : Env) (e : nat) (c : Component) (tr : list Event).

(** C1.  [submit] first prevents the event's default action; then, when
    [new] is set, it POSTs the working profile through [createProfile],
    takes the server's response as the working copy and clears [new];
    otherwise it PUTs the working profile through [updateProfile] and takes
    the server's response as the working copy. *)
Theorem submit_creates_or_updates (p r : ResponseProfile) :
  profile c = Some p ->
  let rq :=
    if new c then mkRequest POST "profiles" [] (Some p)
    else mkRequest PUT ("profiles/" ++ JS.String_of_number (JS.ofZ (id p)))
           [] (Some p) in
  profileOf (backend env) rq = Success r ->
  submit env e (mkWorld c tr)
  = (Ok tt,
     mkWorld (mkComponent false (Some r) (cdns c))
       (tr ++ [PreventDefault e; StopPropagation e; Http rq])).
Proof.
  intros Hp rq Hr. subst rq.
  unfold submit, emit, this, set_profile, set_new, assign.
  unfold ProfileService.createProfile, ProfileService.updateProfile.
  run_step. rewrite Hp.
  destruct (new c) eqn:Hnew; run_step; rewrite Hr; simpl;
    rewrite ?Hnew; run_done.
Qed.

(** C4, as amended.  Submitting an existing record sends the form model
    at once: the only request is the PUT carrying the working profile,
    whatever the server answers; nothing is fetched before it and no
    navigation follows. *)
Theorem submit_existing_sends_only (p : ResponseProfile) :
  new c = false ->
  profile c = Some p ->
  added tr (snd (submit env e (mkWorld c tr)))
  = [PreventDefault e; StopPropagation e;
     Http (mkRequest PUT
             ("profiles/" ++ JS.String_of_number (JS.ofZ (id p)))
             [] (Some p))].
Proof.
  intros Hnew Hp.
  unfold submit, emit, this, set_profile, set_new, assign.
  unfold ProfileService.updateProfile.
  run_step. rewrite Hnew, Hp. run_step.
  destruct (profileOf _ _); simpl; repeat rewrite <- app_assoc;
    apply added_app.
Qed.

End Submit.

(** C4, as stated, fails: submitting the loaded profile [Sample.edge]
    produces no GET before its PUT and no navigation after it. *)
Lemma submit_existing_no_fetch_no_navigation :
  ~ fetchSendNavigate
      (added [] (snd (submit (Sample.env "7") 0 Sample.editing))).
Proof.
  intros (l1 & g & l2 & u & l3 & n & l4 & Hevs & _ & _ & Hn).
  assert (Hin : In n (added [] (snd (submit (Sample.env "7") 0
                                       Sample.editing)))).
  { rewrite Hevs. apply in_or_app. right. right.
    apply in_or_app. right. right.
    apply in_or_app. right. left. reflexivity. }
  vm_compute in Hin.
  destruct Hin as [H | [H | [H | []]]]; subst n; discriminate Hn.
Qed.

Section DeleteType.

#[local] Arguments String.append _ _ : simpl never.
#[local] Arguments JS.String_of_number _ : simpl never.

Variables (env : Env) (c : Component) (tr : list Event).

(** C10.  While [new] is set, [deleteType] only logs an error: no dialog
    is opened and no subscriber left behind, no request is sent, the
    router is not used, and the component's fields stay as they were,
    whatever a dialog would have answered. *)
Theorem deleteType_new_only_logs :
  new c = true ->
  deleteType env (mkWorld c tr)
  = (Ok None, mkWorld c (tr ++ [ConsoleError "Unable to delete new type"]))
  /\ forall result,
      deleteType_closed env result (mkWorld c tr)
      = (Ok tt,
         mkWorld c (tr ++ [ConsoleError "Unable to delete new type"])).
Proof.
  intros Hnew.
  assert (H : deleteType env (mkWorld c tr)
              = (Ok None,
                 mkWorld c (tr ++ [ConsoleError "Unable to delete new type"]))).
  { unfold deleteType, this, emit, ret. run_step. rewrite Hnew.
    destruct c; reflexivity. }
  split; [exact H|].
  intros result. unfold deleteType_closed. rewrite bind_run, H.
  reflexivity.
Qed.

(** What the subscriber adds to the trace when the dialog closes with
    [result] while [p] is the current profile. *)
Lemma afterClosed_run (result : option bool) (c' : Component)
    (tr' : list Event) (p : ResponseProfile) :
  profile c' = Some p ->
  afterClosed env result (mkWorld c' tr')
  = (Ok tt, mkWorld c' (tr' ++ closing (backend env) p result)).
Proof.
  intros Hp. unfold afterClosed, closing.
  destruct (truthy result); [|now rewrite app_nil_r].
  rewrite bind_run, profileField_run, Hp.
  unfold then_, ProfileService.deleteProfile, emit.
  rewrite delete_run.
  destruct (profileOf (backend env) _); simpl;
    repeat rewrite <- app_assoc; reflexivity.
Qed.

(** C6.  For a loaded profile, [deleteType] itself only opens the
    decision dialog and leaves a subscriber with it.  When the dialog
    closes, the subscriber sends one DELETE for the id of the profile
    current at that moment if the result is truthy, and the router
    navigates to the profile list once the server has accepted it; on a
    falsy result nothing is sent.  So in a run of [deleteType] a request
    appears only after the dialog was opened and confirmed. *)
Theorem deleteType_confirm_then_delete (p : ResponseProfile)
    (result : option bool) :
  new c = false ->
  profile c = Some p ->
  let opened :=
    DialogOpen "Confirm Delete"
      ("Are you sure to delete Profile " ++ name p ++ " with id "
         ++ JS.String_of_number (JS.ofZ (id p)) ++ "?") in
  let rq := fun q : ResponseProfile =>
    mkRequest DELETE ("profiles/" ++ JS.String_of_number (JS.ofZ (id q)))
      [] None in
  let after := fun q : ResponseProfile =>
    if truthy result then
      Http (rq q) ::
        match profileOf (backend env) (rq q) with
        | Success _ => [Navigate ["/core/profiles"]]
        | Failure status => [UnhandledRejection (HttpErrorResponse status)]
        end
    else [] in
  deleteType env (mkWorld c tr)
  = (Ok (Some (afterClosed env)), mkWorld c (tr ++ [opened]))
  /\ (forall c' tr' q,
        profile c' = Some q ->
        afterClosed env result (mkWorld c' tr')
        = (Ok tt, mkWorld c' (tr' ++ after q)))
  /\ deleteType_closed env result (mkWorld c tr)
     = (Ok tt, mkWorld c (tr ++ opened :: after p))
  /\ (forall rq', In (Http rq') (opened :: after p) ->
        rq' = rq p /\ truthy result = true).
Proof.
  intros Hnew Hp opened rq after.
  assert (H : deleteType env (mkWorld c tr)
              = (Ok (Some (afterClosed env)), mkWorld c (tr ++ [opened]))).
  { unfold deleteType, this, emit, ret. run_step. rewrite Hnew.
    rewrite !bind_run, !profileField_run, Hp. simpl.
    rewrite bind_run, profileField_run, Hp. reflexivity. }
  split; [exact H|]. split; [|split].
  - intros c' tr' q Hq. now rewrite (afterClosed_run result c' tr' q Hq).
  - unfold deleteType_closed. rewrite bind_run, H.
    rewrite (afterClosed_run result c _ p Hp).
    now rewrite <- app_assoc.
  - intros rq' [Hin | Hin]; [discriminate Hin|].
    unfold after in Hin.
    destruct (truthy result); [|contradiction].
    split; [|reflexivity].
    destruct Hin as [Hin | Hin]; [congruence|].
    destruct (profileOf (backend env) (rq p));
      destruct Hin as [Hin | []]; discriminate Hin.
Qed.

End DeleteType.

(* ===================================================================== *)
(** ** The route table *)
(* ===================================================================== *)

Lemma ROUTES_guarded_each (r : Route) :
  In r CoreModule.ROUTES -> canActivate r = [AuthenticatedGuard].
Proof.
  unfold CoreModule.ROUTES. intros Hin.
  apply in_map_iff in Hin. destruct Hin as (d & <- & _). reflexivity.
Qed.

Lemma ROUTES_paths_distinct : NoDup (map path CoreModule.ROUTES).
Proof.
  unfold CoreModule.ROUTES, CoreModule.declared. simpl.
  repeat (constructor;
          [ simpl; intros H;
            repeat (destruct H as [H | H]; [discriminate H|]); exact H
          | ]).
  constructor.
Qed.

(** C7.  The table has the entries [profiles] for [ProfileTableComponent],
    [profiles/:id] for [ProfileDetailComponent] and [cdns/:id] for
    [CDNDetailComponent], and every entry lists [AuthenticatedGuard] in
    [canActivate]. *)
Theorem ROUTES_profiles_cdns_guarded :
  CoreModule.routeAt "profiles"
  = Some (mkRoute ProfileTableComponent "profiles" [AuthenticatedGuard])
  /\ CoreModule.routeAt "profiles/:id"
     = Some (mkRoute ProfileDetailComponent "profiles/:id"
               [AuthenticatedGuard])
  /\ CoreModule.routeAt "cdns/:id"
     = Some (mkRoute CDNDetailComponent "cdns/:id" [AuthenticatedGuard])
  /\ Forall (fun r => In AuthenticatedGuard (canActivate r))
       CoreModule.ROUTES.
Proof.
  repeat split; try reflexivity.
  apply Forall_forall. intros r Hin.
  rewrite (ROUTES_guarded_each r Hin). left. reflexivity.
Qed.

(* ===================================================================== *)
(** ** The built-ins on strings of decimal digits *)
(* ===================================================================== *)

Ltac each_char c := destruct c as [[] [] [] [] [] [] [] []].

Lemma digit_not_space (c : ascii) :
  isDecimalDigit c = true -> JS.isWhiteSpace c = false.
Proof. each_char c; intros H; try discriminate H; reflexivity. Qed.

Lemma digit_radix10 (c : ascii) :
  isDecimalDigit c = true ->
  JS.radixDigit 10 c = Some (N_of_ascii c - 48)%N.
Proof. each_char c; intros H; try discriminate H; reflexivity. Qed.

Lemma digit_no_sign (c : ascii) (r : string) :
  isDecimalDigit c = true ->
  JS.stripSign (String c r) = (false, String c r).
Proof. each_char c; intros H; try discriminate H; reflexivity. Qed.

Lemma digit_not_letter (c : ascii) :
  isDecimalDigit c = true ->
  forall l, In l ["x"; "X"; "o"; "O"; "b"; "B"; "I"]%char ->
            (c =? l)%char = false.
Proof.
  intros H l Hl. simpl in Hl.
  repeat (destruct Hl as [<- | Hl];
          [each_char c; try discriminate H; reflexivity|]).
  contradiction.
Qed.

Lemma scanDigits_allDigits (s : string) :
  allDigits s = true ->
  forall acc,
    JS.scanDigits 10 acc s
    = (String.length s, decimalValue acc s, EmptyString).
Proof.
  induction s as [|c r IH]; simpl; intros H acc; [reflexivity|].
  apply andb_prop in H. destruct H as [Hc Hr].
  rewrite (digit_radix10 c Hc), (IH Hr). reflexivity.
Qed.

Lemma trimEnd_allDigits (s : string) :
  allDigits s = true -> JS.trimEnd s = s.
Proof.
  induction s as [|c r IH]; simpl; intros H; [reflexivity|].
  apply andb_prop in H. destruct H as [Hc Hr].
  rewrite (IH Hr), (digit_not_space c Hc).
  destruct r; reflexivity.
Qed.

Lemma trim_numericId (s : string) :
  numericId s = true -> JS.trim s = s.
Proof.
  destruct s as [|c r]; [discriminate|]. intros H. simpl in H.
  unfold JS.trim.
  assert (Hc : isDecimalDigit c = true)
    by (apply andb_prop in H; tauto).
  replace (JS.trimStart (String c r)) with (String c r)
    by (simpl; now rewrite (digit_not_space c Hc)).
  now apply trimEnd_allDigits.
Qed.

Lemma nonDecimalPrefixed_numericId (s : string) :
  numericId s = true -> JS.nonDecimalPrefixed s = None.
Proof.
  destruct s as [|c [|c' r]]; try discriminate; intros H.
  - simpl in H. each_char c; try discriminate H; reflexivity.
  - simpl in H. apply andb_prop in H. destruct H as [_ H].
    apply andb_prop in H. destruct H as [Hc' _].
    unfold JS.nonDecimalPrefixed.
    rewrite !(digit_not_letter c' Hc') by (simpl; tauto).
    each_char c; reflexivity.
Qed.

(** On a numeric route parameter [parseInt(id, 10)] and [Number(id)] are
    both the integer its digits denote. *)
Lemma parseInt_numericId (s : string) :
  numericId s = true ->
  JS.parseInt s 10 = JS.toDouble false (decimalValue 0 s) 0.
Proof.
  intros H. destruct s as [|c r]; [discriminate|].
  assert (Hc : isDecimalDigit c = true)
    by (simpl in H; apply andb_prop in H; tauto).
  unfold JS.parseInt.
  replace (JS.trimStart (String c r)) with (String c r)
    by (simpl; now rewrite (digit_not_space c Hc)).
  rewrite (digit_no_sign c r Hc).
  cbn -[JS.scanDigits decimalValue].
  rewrite (scanDigits_allDigits _ H). reflexivity.
Qed.

Lemma Number_numericId (s : string) :
  numericId s = true ->
  JS.Number s = JS.toDouble false (decimalValue 0 s) 0.
Proof.
  intros H. unfold JS.Number.
  rewrite (trim_numericId s H), (nonDecimalPrefixed_numericId s H).
  destruct s as [|c r]; [discriminate|].
  assert (Hc : isDecimalDigit c = true)
    by (simpl in H; apply andb_prop in H; tauto).
  unfold JS.strDecimalLiteral. rewrite (digit_no_sign c r Hc).
  replace (String c r =? "Infinity")%string with false
    by (simpl; now rewrite (digit_not_letter c Hc "I"%char)
                 by (simpl; tauto)).
  unfold JS.unsignedDecimal.
  rewrite (scanDigits_allDigits _ H). reflexivity.
Qed.

(** *** Canonical decimal renderings *)

Ltac digit_literal :=
  repeat match goal with
    | |- context [(N_of_ascii ?c - 48)%N] =>
        let v := eval vm_compute in (N_of_ascii c - 48)%N in
        change (N_of_ascii c - 48)%N with v
    end.

Lemma allDigits_string_of_uint (d : Decimal.uint) :
  allDigits (NilEmpty.string_of_uint d) = true.
Proof. induction d; simpl; auto. Qed.

Lemma decimalValue_of_uint_acc (d : Decimal.uint) :
  forall acc : positive,
    decimalValue (Npos acc) (NilEmpty.string_of_uint d)
    = Npos (Pos.of_uint_acc d acc).
Proof.
  induction d; intros acc; cbn [NilEmpty.string_of_uint decimalValue
                                   Pos.of_uint_acc];
    [reflexivity | rewrite <- IHd; f_equal; digit_literal; lia ..].
Qed.

Lemma decimalValue_of_uint (d : Decimal.uint) :
  decimalValue 0 (NilEmpty.string_of_uint d) = N.of_uint d.
Proof.
  induction d; cbn [NilEmpty.string_of_uint decimalValue];
    digit_literal;
    [reflexivity | exact IHd | apply decimalValue_of_uint_acc ..].
Qed.

Lemma numericId_digitsOfN (v : N) : numericId (JS.digitsOfN v) = true.
Proof.
  unfold JS.digitsOfN, numericId.
  pose proof (allDigits_string_of_uint (N.to_uint v)) as H.
  destruct (NilEmpty.string_of_uint (N.to_uint v)) eqn:E; [|exact H].
  exfalso. destruct v as [|p]; [discriminate E|].
  simpl in E. pose proof (DecimalPos.Unsigned.to_uint_nonnil p) as Hn.
  destruct (Pos.to_uint p); [congruence | discriminate E ..].
Qed.

Lemma decimalValue_digitsOfN (v : N) :
  decimalValue 0 (JS.digitsOfN v) = v.
Proof.
  unfold JS.digitsOfN. rewrite decimalValue_of_uint.
  apply DecimalN.Unsigned.of_to.
Qed.

(** No conversion of digits gives NaN. *)
Lemma canon_not_NaN (neg : bool) (q : N) (p : Z) :
  JS.Number_isNaN (JS.canon neg q p) = false.
Proof.
  unfold JS.canon. destruct q as [|q']; [reflexivity|].
  destruct (0 <=? p)%Z; [reflexivity|]. cbv zeta.
  destruct (_ =? 0)%Z; reflexivity.
Qed.

Lemma toDouble_not_NaN (neg : bool) (m : N) (e : Z) :
  JS.Number_isNaN (JS.toDouble neg m e) = false.
Proof.
  unfold JS.toDouble.
  destruct (m =? 0)%N; [reflexivity|].
  destruct ((e =? 0)%Z && (m <? JS.maxSafe)%N); [reflexivity|].
  cbv zeta.
  destruct (310 <? _)%Z; [reflexivity|].
  destruct (_ <? -330)%Z; [reflexivity|].
  destruct (N.div_eucl _ _) as [q r].
  destruct (_ && _); [reflexivity | apply canon_not_NaN].
Qed.

(** An integer below 2^53 is a binary64 value, and is printed as its
    sign and its digits. *)
Lemma toDouble_safe (neg : bool) (v : N) :
  (v < JS.maxSafe)%N -> JS.toDouble neg v 0 = JS.Dec neg v 0.
Proof.
  intros Hv. unfold JS.toDouble.
  destruct (N.eqb_spec v 0) as [-> | _]; [reflexivity|].
  apply N.ltb_lt in Hv. now rewrite Hv.
Qed.

Lemma String_of_number_signed (neg : bool) (v : N) :
  v <> 0%N ->
  (v < JS.maxSafe)%N ->
  JS.String_of_number (JS.Dec neg v 0)
  = ((if neg then "-" else "") ++ JS.digitsOfN v)%string.
Proof.
  intros Hv Hlt. unfold JS.String_of_number.
  rewrite (toDouble_safe neg v Hlt).
  destruct (N.eqb_spec v 0) as [-> | _]; [congruence|].
  apply N.ltb_lt in Hlt. now rewrite Hlt.
Qed.

Lemma String_of_number_integer (v : N) :
  (v < JS.maxSafe)%N ->
  JS.String_of_number (JS.Dec false v 0) = JS.digitsOfN v.
Proof.
  intros Hlt. destruct (N.eq_dec v 0) as [-> | Hv]; [reflexivity|].
  now rewrite String_of_number_signed.
Qed.

(** The id interpolated in a path or a message is its decimal
    rendering. *)
Lemma String_of_number_ofZ (z : Z) :
  (Z.abs_N z < JS.maxSafe)%N ->
  JS.String_of_number (JS.ofZ z) = decimalOfZ z.
Proof.
  intros Hlt. unfold JS.ofZ, decimalOfZ.
  rewrite (toDouble_safe _ _ Hlt).
  destruct (N.eq_dec (Z.abs_N z) 0) as [E | Hv].
  - rewrite E. replace (z <? 0)%Z with false; [reflexivity|].
    symmetry. apply Z.ltb_ge. lia.
  - now apply String_of_number_signed.
Qed.

(** A string of [n] digits denotes a number below [10^n]; 15 digits stay
    below 2^53. *)
Lemma decimalValue_lt (s : string) :
  allDigits s = true ->
  forall acc,
    (decimalValue acc s < (acc + 1) * 10 ^ N.of_nat (String.length s))%N.
Proof.
  induction s as [|c r IH]; intros H acc.
  - simpl. lia.
  - simpl in H. apply andb_prop in H. destruct H as [Hc Hr].
    cbn [decimalValue String.length].
    specialize (IH Hr (acc * 10 + (N_of_ascii c - 48))%N).
    rewrite Nat2N.inj_succ, N.pow_succ_r'.
    assert (Hd : (N_of_ascii c - 48 <= 9)%N).
    { unfold isDecimalDigit in Hc. apply andb_prop in Hc.
      destruct Hc as [_ Hc]. apply N.leb_le in Hc. lia. }
    set (P := (10 ^ N.of_nat (String.length r))%N) in *.
    nia.
Qed.

Lemma digits_safe (v : N) :
  (String.length (JS.digitsOfN v) <= 15)%nat -> (v < JS.maxSafe)%N.
Proof.
  intros Hlen.
  pose proof (numericId_digitsOfN v) as Hn.
  assert (Hall : allDigits (JS.digitsOfN v) = true).
  { destruct (JS.digitsOfN v); [discriminate Hn | exact Hn]. }
  pose proof (decimalValue_lt _ Hall 0%N) as Hlt.
  rewrite decimalValue_digitsOfN in Hlt.
  assert (Hpow : (10 ^ N.of_nat (String.length (JS.digitsOfN v))
                  <= 10 ^ 15)%N)
    by (apply N.pow_le_mono_r; lia).
  change (10 ^ 15)%N with 1000000000000000%N in Hpow.
  unfold JS.maxSafe. lia.
Qed.

(** The decimal rendering of an id below 2^53 is read back as that id,
    and the number read is printed as the same rendering. *)
Lemma Number_digitsOfN (v : N) :
  (v < JS.maxSafe)%N ->
  JS.Number (JS.digitsOfN v) = JS.Dec false v 0.
Proof.
  intros Hlt.
  rewrite (Number_numericId _ (numericId_digitsOfN v)).
  rewrite decimalValue_digitsOfN. now apply toDouble_safe.
Qed.

Lemma String_Number_digitsOfN (v : N) :
  (v < JS.maxSafe)%N ->
  JS.String_of_number (JS.Number (JS.digitsOfN v)) = JS.digitsOfN v.
Proof.
  intros H. rewrite Number_digitsOfN by assumption.
  now apply String_of_number_integer.
Qed.

(* ===================================================================== *)
(** ** ProfileService: the requests *)
(* ===================================================================== *)

Section ProfileServiceRequests.

#[local] Arguments String.append _ _ : simpl never.
#[local] Arguments JS.String_of_number _ : simpl never.
#[local] Arguments JS.ofZ _ : simpl never.

Variable b : Backend.
Variables (c : Component) (tr : list Event).

#[local] Abbreviation w := (mkWorld c tr).

(** C5.  Every method of [ProfileService] sends exactly one request and
    hands back what the server answers: [createProfile] a POST to
    [profiles] with the profile as body; [getProfiles()] a GET to
    [profiles] and the whole array; [getProfiles(n)] a GET to [profiles]
    with the parameter [id] set to the number, and the first profile of
    the answer; [updateProfile] a PUT to [profiles/{id}] with the [id]
    field of its argument; [deleteProfile] a DELETE to [profiles/{id}],
    for a bare id and for a profile alike.  An id below 2^53 appears in
    the path or the parameter as its decimal digits, with its sign. *)
Theorem ProfileService_pass_through :
  (forall p,
      ProfileService.createProfile b (Some p) w
      = (outcome (profileOf b (mkRequest POST "profiles" [] (Some p))),
         mkWorld c (tr ++ [Http (mkRequest POST "profiles" [] (Some p))])))
  /\ ProfileService.getProfiles_all b w
     = (outcome (profilesOf b (mkRequest GET "profiles" [] None)),
        mkWorld c (tr ++ [Http (mkRequest GET "profiles" [] None)]))
  /\ (forall n : JS.Num,
         let rq := mkRequest GET "profiles"
                     [("id", JS.String_of_number n)] None in
         ProfileService.getProfiles_one b (inl n) w
         = (match profilesOf b rq with
            | Success r => Ok (nth_error r 0)
            | Failure status => Throw (HttpErrorResponse status)
            end,
            mkWorld c (tr ++ [Http rq])))
  /\ (forall p,
         let rq := mkRequest PUT
                     ("profiles/" ++ JS.String_of_number (JS.ofZ (id p)))
                     [] (Some p) in
         ProfileService.updateProfile b (Some p) w
         = (outcome (profileOf b rq), mkWorld c (tr ++ [Http rq])))
  /\ (forall (i : Z) (p : ResponseProfile),
         let rq := fun k => mkRequest DELETE
                     ("profiles/" ++ JS.String_of_number (JS.ofZ k))
                     [] None in
         ProfileService.deleteProfile b (inl i) w
         = (outcome (profileOf b (rq i)), mkWorld c (tr ++ [Http (rq i)]))
         /\ ProfileService.deleteProfile b (inr p) w
            = (outcome (profileOf b (rq (id p))),
               mkWorld c (tr ++ [Http (rq (id p))])))
  /\ (forall i : Z,
         (Z.abs_N i < 9007199254740992)%N ->
         let get := mkRequest GET "profiles" [("id", decimalOfZ i)] None in
         let del := mkRequest DELETE ("profiles/" ++ decimalOfZ i) []
                      None in
         snd (ProfileService.getProfiles_one b (inl (JS.ofZ i)) w)
         = mkWorld c (tr ++ [Http get])
         /\ snd (ProfileService.deleteProfile b (inl i) w)
            = mkWorld c (tr ++ [Http del]))
  /\ (forall p : ResponseProfile,
         (Z.abs_N (id p) < 9007199254740992)%N ->
         let put := mkRequest PUT ("profiles/" ++ decimalOfZ (id p)) []
                      (Some p) in
         let del := mkRequest DELETE ("profiles/" ++ decimalOfZ (id p)) []
                      None in
         snd (ProfileService.updateProfile b (Some p) w)
         = mkWorld c (tr ++ [Http put])
         /\ snd (ProfileService.deleteProfile b (inr p) w)
            = mkWorld c (tr ++ [Http del])).
Proof.
  split; [|split; [|split; [|split; [|split; [|split]]]]].
  - intros p. unfold ProfileService.createProfile. now run_step.
  - unfold ProfileService.getProfiles_all, ProfileService.getProfiles.
    run_step.
    destruct (profilesOf b (mkRequest GET "profiles" [] None));
      reflexivity.
  - intros n. apply (getProfiles_one_run b c tr (inl n)).
  - intros p. unfold ProfileService.updateProfile. now run_step.
  - intros i p. split; unfold ProfileService.deleteProfile; now run_step.
  - intros i Hi. cbv zeta. rewrite <- (String_of_number_ofZ i Hi).
    rewrite getProfiles_one_run.
    unfold ProfileService.deleteProfile. rewrite delete_run.
    split; reflexivity.
  - intros p Hp. cbv zeta. rewrite <- (String_of_number_ofZ (id p) Hp).
    unfold ProfileService.updateProfile, ProfileService.deleteProfile.
    rewrite put_run, delete_run. split; reflexivity.
Qed.

End ProfileServiceRequests.

(* ===================================================================== *)
(** ** ProfileDetailComponent: ngOnInit *)
(* ===================================================================== *)

Section NgOnInit.

#[local] Arguments String.append _ _ : simpl never.
#[local] Arguments JS.String_of_number _ : simpl never.
#[local] Arguments JS.parseInt _ _ : simpl never.
#[local] Arguments JS.Number _ : simpl never.
#[local] Arguments String.eqb _ _ : simpl never.

Variables (env : Env) (c : Component) (tr : list Event).
Variable cs : list ResponseCDN.

#[local] Abbreviation cdnsRequest := (mkRequest GET "cdns" [] None).
#[local] Abbreviation loaded := (mkComponent (new c) (profile c) (Some cs)).

Hypothesis cdns_fetched : cdnsOf (backend env) cdnsRequest = Success cs.

(** What [ngOnInit] does once the CDN list has arrived, by the route
    parameter and by the server's answer to the profile query. *)
Lemma ngOnInit_run :
  ngOnInit env (mkWorld c tr)
  = match paramMap_get (paramMap env) "id" with
    | None =>
        (Throw (Error "missing required route parameter 'id'"),
         mkWorld loaded (tr ++ [Http cdnsRequest]))
    | Some s =>
        if (s =? "new")%string then
          (Ok tt,
           mkWorld
             (mkComponent true
                (Some (mkProfile (-1) "" "" (-1) (now env) "" false
                         ATS_PROFILE))
                (Some cs))
             (tr ++ [Http cdnsRequest; HeaderTitle "New Profile"]))
        else if JS.Number_isNaN (JS.parseInt s 10) then
          (Throw (Error nonNumberMessage),
           mkWorld loaded (tr ++ [Http cdnsRequest]))
        else
          let rq := lookup (inl (JS.Number s)) in
          match profilesOf (backend env) rq with
          | Failure status =>
              (Throw (HttpErrorResponse status),
               mkWorld loaded (tr ++ [Http cdnsRequest; Http rq]))
          | Success [] =>
              (Throw (TypeError "name"),
               mkWorld (mkComponent (new c) None (Some cs))
                 (tr ++ [Http cdnsRequest; Http rq]))
          | Success (p :: _) =>
              (Ok tt,
               mkWorld (mkComponent (new c) (Some p) (Some cs))
                 (tr ++ [Http cdnsRequest; Http rq;
                         HeaderTitle ("Profile: " ++ name p)]))
          end
    end.
Proof.
  unfold ngOnInit, getCDNs.
  rewrite bind_run, get_run, cdns_fetched. simpl.
  unfold set_cdns, assign. rewrite bind_run. simpl.
  destruct (paramMap_get (paramMap env) "id") as [s|]; [|reflexivity].
  destruct (s =? "new")%string.
  - unfold set_new, set_profile, assign, emit. run_done.
  - destruct (JS.Number_isNaN (JS.parseInt s 10)); [reflexivity|].
    rewrite bind_run, getProfiles_one_run.
    destruct (profilesOf (backend env) (lookup (inl (JS.Number s))))
      as [[|p rest]|status]; simpl;
      unfold set_profile, assign, emit;
      rewrite ?bind_run; simpl; rewrite ?bind_run, ?profileField_run;
      simpl; repeat rewrite <- app_assoc; reflexivity.
Qed.

(** C2.  With the route parameter [new], [ngOnInit] sets the working
    record to the empty one (empty name and description, id -1, cdn -1,
    routing not disabled, type ATS_PROFILE), sets [new], and sends no
    request for a profile: the only request is the one for the CDN
    list. *)
Theorem ngOnInit_new_record :
  paramMap_get (paramMap env) "id" = Some "new" ->
  ngOnInit env (mkWorld c tr)
  = (Ok tt,
     mkWorld
       (mkComponent true
          (Some {| cdn := -1; cdnName := ""; description := ""; id := -1;
                   lastUpdated := now env; name := "";
                   routingDisabled := false; type := ATS_PROFILE |})
          (Some cs))
       (tr ++ [Http cdnsRequest; HeaderTitle "New Profile"]))
  /\ existsb fetchesProfiles (added tr (snd (ngOnInit env (mkWorld c tr))))
     = false.
Proof.
  intros Hid. rewrite ngOnInit_run, Hid.
  split; [reflexivity|].
  change (snd _) with
    (mkWorld
       (mkComponent true
          (Some (mkProfile (-1) "" "" (-1) (now env) "" false ATS_PROFILE))
          (Some cs))
       (tr ++ [Http cdnsRequest; HeaderTitle "New Profile"])).
  rewrite added_app. reflexivity.
Qed.

(** C3, as amended.  With a route parameter made of decimal digits that
    denotes a number below 2^53, [ngOnInit] asks the API for the profile
    whose id is that number, written in decimal; when the API answers with
    at least one record, the first becomes the form model, [new] is left
    as it was (false on a component as constructed), and the header title
    [Profile: ] followed by the record's name is published. *)
Theorem ngOnInit_loads_numeric_id (s : string) (p : ResponseProfile)
    (rest : list ResponseProfile) :
  paramMap_get (paramMap env) "id" = Some s ->
  numericId s = true ->
  (decimalValue 0 s < 9007199254740992)%N ->
  let rq :=
    mkRequest GET "profiles"
      [("id", JS.digitsOfN (decimalValue 0 s))] None in
  profilesOf (backend env) rq = Success (p :: rest) ->
  ngOnInit env (mkWorld c tr)
  = (Ok tt,
     mkWorld (mkComponent (new c) (Some p) (Some cs))
       (tr ++ [Http cdnsRequest; Http rq;
               HeaderTitle ("Profile: " ++ name p)]))
  /\ (new c = false ->
      new (self (snd (ngOnInit env (mkWorld c tr)))) = false).
Proof.
  intros Hid Hnum Hsafe rq Hrq. rewrite ngOnInit_run, Hid.
  assert (Hnew : (s =? "new")%string = false).
  { destruct s as [|a r]; [discriminate Hnum|].
    simpl in Hnum. apply andb_prop in Hnum. destruct Hnum as [Ha _].
    each_char a; try discriminate Ha; reflexivity. }
  rewrite Hnew, (parseInt_numericId s Hnum), toDouble_not_NaN.
  cbv zeta. unfold lookup.
  rewrite (Number_numericId s Hnum), (toDouble_safe _ _ Hsafe).
  rewrite (String_of_number_integer _ Hsafe). fold rq.
  rewrite Hrq. simpl. split; [reflexivity | auto].
Qed.

(** C8, as amended.  Once the CDN list has arrived, [ngOnInit] throws
    one of its own two errors exactly when the route parameter [id] is absent, or is a
    string other than [new] whose [parseInt(id, 10)] is NaN.  For every
    other id than [new] that it accepts it asks for the profile with
    [Number(id)]; so when the server answers that query with a profile,
    nothing at all is thrown.  The two conversions disagree: [12x] is
    accepted, its [parseInt] being 12, and its [Number], which is what is
    sent, is NaN. *)
Theorem ngOnInit_refuses_exactly :
  let id := paramMap_get (paramMap env) "id" in
  let run := ngOnInit env (mkWorld c tr) in
  ((exists message, fst run = Throw (Error message)) <-> refused id)
  /\ (forall s, id = Some s -> s <> "new" ->
        JS.Number_isNaN (JS.parseInt s 10) = false ->
        exists evs,
          added tr (snd run)
          = Http cdnsRequest :: Http (lookup (inl (JS.Number s))) :: evs)
  /\ (forall s p rest, id = Some s -> s <> "new" ->
        profilesOf (backend env) (lookup (inl (JS.Number s)))
        = Success (p :: rest) ->
        ((exists e, fst run = Throw e) <-> refused id))
  /\ (JS.parseInt "12x" 10 = JS.Dec false 12 0
      /\ JS.Number "12x" = JS.NaN
      /\ lookup (inl (JS.Number "12x"))
         = mkRequest GET "profiles" [("id", "NaN")] None).
Proof.
  intros id run. subst run. rewrite ngOnInit_run. fold id.
  split; [split | split; [|split; [|repeat split]]].
  - (* an error of its own was thrown: the parameter is refused *)
    intros [message H]. destruct id as [s|]; [|exact I]. simpl.
    destruct (String.eqb_spec s "new") as [->|Hne]; [discriminate H|].
    destruct (JS.Number_isNaN (JS.parseInt s 10)); [auto|].
    exfalso. simpl in H.
    destruct (profilesOf (backend env) (lookup (inl (JS.Number s))))
      as [[|? ?]|?]; discriminate H.
  - (* a refused parameter: one of the two errors *)
    intros H. destruct id as [s|]; [|eexists; reflexivity].
    destruct H as [Hne HNaN].
    destruct (String.eqb_spec s "new") as [->|_]; [congruence|].
    rewrite HNaN. eexists; reflexivity.
  - (* an accepted parameter: the profile is asked for *)
    intros s Hid Hne Hnum. rewrite Hid.
    destruct (String.eqb_spec s "new") as [->|_]; [congruence|].
    rewrite Hnum. simpl.
    destruct (profilesOf _ _) as [[|? ?]|?]; simpl;
      rewrite added_app; eexists; reflexivity.
  - (* the server has the profile: nothing else can be thrown *)
    intros s p rest Hid Hne Hrq. rewrite Hid. simpl.
    destruct (String.eqb_spec s "new") as [->|_]; [congruence|].
    destruct (JS.Number_isNaN (JS.parseInt s 10)).
    + split; [auto | intros _; eexists; reflexivity].
    + simpl. rewrite Hrq. split.
      * intros [e H]. discriminate H.
      * intros [_ H]. discriminate H.
Qed.

End NgOnInit.

(* ===================================================================== *)
(** ** The statements at the sample server *)
(* ===================================================================== *)

Lemma submit_creates_or_updates_sample :
  submit (Sample.env "new") 0 Sample.creating
  = (Ok tt,
     mkWorld
       (mkComponent false
          (Some (mkProfile (-1) "" "a draft" 9 1700000002 "DRAFT" false
                   ATS_PROFILE))
          (Some [mkCDN 1 "cdn1"]))
       [PreventDefault 0; StopPropagation 0;
        Http (mkRequest POST "profiles" [] (Some Sample.draft))]).
Proof.
  exact (submit_creates_or_updates (Sample.env "new") 0
           (self Sample.creating) [] Sample.draft
           (mkProfile (-1) "" "a draft" 9 1700000002 "DRAFT" false
              ATS_PROFILE)
           eq_refl eq_refl).
Defined.

Lemma submit_existing_sends_only_sample :
  added [] (snd (submit (Sample.env "7") 0 Sample.editing))
  = [PreventDefault 0; StopPropagation 0;
     Http (mkRequest PUT "profiles/7" [] (Some Sample.edge))].
Proof.
  exact (submit_existing_sends_only (Sample.env "7") 0
           (self Sample.editing) [] Sample.edge eq_refl eq_refl).
Defined.

Lemma getProfiles_first_element_sample :
  fst (ProfileService.getProfiles_one Sample.server (inr "MID")
         Sample.fresh)
  = Ok (Some Sample.mid)
  /\ fst (ProfileService.getProfiles_one Sample.server (inl (JS.ofZ 404))
            Sample.fresh)
     = Ok None.
Proof.
  split.
  - exact (proj2 (proj2
             (getProfiles_first_element Sample.server
                (self Sample.fresh) [] (inr "MID") [Sample.mid] eq_refl))
             Sample.mid [] eq_refl).
  - exact (proj1 (proj2
             (getProfiles_first_element Sample.server
                (self Sample.fresh) [] (inl (JS.ofZ 404)) [] eq_refl))
             eq_refl).
Defined.

Lemma deleteType_new_only_logs_sample :
  deleteType_closed (Sample.env "new") (Some true) Sample.creating
  = (Ok tt,
     mkWorld (self Sample.creating)
       [ConsoleError "Unable to delete new type"]).
Proof.
  exact (proj2 (deleteType_new_only_logs (Sample.env "new")
                  (self Sample.creating) [] eq_refl) (Some true)).
Defined.

Lemma deleteType_confirm_then_delete_sample :
  deleteType_closed (Sample.env "7") (Some true) Sample.editing
  = (Ok tt,
     mkWorld (self Sample.editing)
       [DialogOpen "Confirm Delete"
          "Are you sure to delete Profile EDGE with id 7?";
        Http (mkRequest DELETE "profiles/7" [] None);
        Navigate ["/core/profiles"]])
  /\ deleteType_closed (Sample.env "7") (Some false) Sample.editing
     = (Ok tt,
        mkWorld (self Sample.editing)
          [DialogOpen "Confirm Delete"
             "Are you sure to delete Profile EDGE with id 7?"]).
Proof.
  split.
  - exact (proj1 (proj2 (proj2
             (deleteType_confirm_then_delete (Sample.env "7")
                (self Sample.editing) [] Sample.edge (Some true)
                eq_refl eq_refl)))).
  - exact (proj1 (proj2 (proj2
             (deleteType_confirm_then_delete (Sample.env "7")
                (self Sample.editing) [] Sample.edge (Some false)
                eq_refl eq_refl)))).
Defined.

Lemma ngOnInit_new_record_sample :
  ngOnInit (Sample.env "new") Sample.fresh
  = (Ok tt,
     mkWorld
       (mkComponent true
          (Some (mkProfile (-1) "" "" (-1) 1700000003 "" false ATS_PROFILE))
          (Some [mkCDN 1 "cdn1"]))
       [Http (mkRequest GET "cdns" [] None); HeaderTitle "New Profile"]).
Proof.
  exact (proj1 (ngOnInit_new_record (Sample.env "new")
                  (self Sample.fresh) [] [mkCDN 1 "cdn1"]
                  eq_refl eq_refl)).
Defined.

Lemma ngOnInit_loads_numeric_id_sample :
  ngOnInit (Sample.env "8") Sample.fresh
  = (Ok tt,
     mkWorld (mkComponent false (Some Sample.mid) (Some [mkCDN 1 "cdn1"]))
       [Http (mkRequest GET "cdns" [] None);
        Http (mkRequest GET "profiles" [("id", "8")] None);
        HeaderTitle "Profile: MID"]).
Proof.
  exact (proj1 (ngOnInit_loads_numeric_id (Sample.env "8")
                  (self Sample.fresh) [] [mkCDN 1 "cdn1"] eq_refl
                  "8" Sample.mid [] eq_refl eq_refl eq_refl eq_refl)).
Defined.

Lemma ngOnInit_refuses_exactly_sample :
  (exists message,
      fst (ngOnInit (Sample.env "profile-8") Sample.fresh)
      = Throw (Error message))
  /\ ~ (exists message,
          fst (ngOnInit (Sample.env "12x") Sample.fresh)
          = Throw (Error message)).
Proof.
  split.
  - apply (proj1 (ngOnInit_refuses_exactly (Sample.env "profile-8")
                    (self Sample.fresh) [] [mkCDN 1 "cdn1"] eq_refl)).
    split; [discriminate | reflexivity].
  - intros H.
    apply (proj1 (ngOnInit_refuses_exactly (Sample.env "12x")
                    (self Sample.fresh) [] [mkCDN 1 "cdn1"] eq_refl))
      in H.
    destruct H as [_ H]. discriminate H.
Defined.

(* ===================================================================== *)
(** ** ngOnInit on every route and every server *)
(* ===================================================================== *)

Section NgOnInitAlways.

#[local] Arguments String.append _ _ : simpl never.
#[local] Arguments JS.String_of_number _ : simpl never.
#[local] Arguments JS.parseInt _ _ : simpl never.
#[local] Arguments JS.Number _ : simpl never.
#[local] Arguments String.eqb _ _ : simpl never.

Variables (env : Env) (c : Component) (tr : list Event).

#[local] Abbreviation cdnsRequest := (mkRequest GET "cdns" [] None).
#[local] Abbreviation run := (ngOnInit env (mkWorld c tr)).

Lemma ngOnInit_cdns_failed (status : N) :
  cdnsOf (backend env) cdnsRequest = Failure status ->
  run = (Throw (HttpErrorResponse status),
         mkWorld c (tr ++ [Http cdnsRequest])).
Proof.
  intros H. unfold ngOnInit, getCDNs.
  now rewrite bind_run, get_run, H.
Qed.

(** Splits a statement on [ngOnInit] into the seven ways it can go. *)
Ltac ngOnInit_paths :=
  destruct (cdnsOf (backend env) cdnsRequest) as [cs|status] eqn:Hcdns;
  [ rewrite (ngOnInit_run env c tr cs Hcdns);
    destruct (paramMap_get (paramMap env) "id") as [s|] eqn:Hid;
    [ destruct (String.eqb_spec s "new") as [Hnew|Hnew];
      [ | destruct (JS.Number_isNaN (JS.parseInt s 10)) eqn:Hguard;
          [ | cbv zeta;
              destruct (profilesOf (backend env)
                          (lookup (inl (JS.Number s))))
                as [[|p rest]|status] eqn:Hprofiles ] ]
    | ]
  | rewrite (ngOnInit_cdns_failed status Hcdns) ].

(** X1.  When the request for the CDN list fails, [ngOnInit] ends with
    that failure whatever the route parameter is: the component keeps all
    its fields, no title is published and no profile is asked for. *)
Theorem ngOnInit_cdn_failure_stops (status : N) :
  cdnsOf (backend env) cdnsRequest = Failure status ->
  fst run = Throw (HttpErrorResponse status)
  /\ self (snd run) = c
  /\ added tr (snd run) = [Http cdnsRequest].
Proof.
  intros H. rewrite (ngOnInit_cdns_failed status H). simpl.
  repeat split. apply added_app.
Qed.

(** X2.  [ngOnInit] only reads: whatever the route and the server, the
    events it adds begin with the request for the CDN list, are GETs and
    header titles only, and hold at most two requests and at most one
    title. *)
Theorem ngOnInit_only_reads :
  hd_error (added tr (snd run)) = Some (Http cdnsRequest)
  /\ forallb readsOnly (added tr (snd run)) = true
  /\ (List.length (filter isRequest (added tr (snd run))) <= 2)%nat
  /\ (List.length (filter (fun ev => negb (isRequest ev))
                     (added tr (snd run))) <= 1)%nat.
Proof.
  ngOnInit_paths; simpl; rewrite added_app; simpl; repeat split; lia.
Qed.

(** X3.  When [ngOnInit] completes, the form has its model: [profile] and
    [cdns] are both defined, and the last thing done was to publish the
    header title. *)
Theorem ngOnInit_completed_has_model :
  fst run = Ok tt ->
  (exists p cs, profile (self (snd run)) = Some p
                /\ cdns (self (snd run)) = Some cs)
  /\ exists evs title,
       added tr (snd run) = (evs ++ [HeaderTitle title])%list.
Proof.
  ngOnInit_paths; simpl; intros H; try discriminate H;
    rewrite added_app; split; eauto.
  - exists [Http cdnsRequest], "New Profile". reflexivity.
  - exists [Http cdnsRequest; Http (lookup (inl (JS.Number s)))],
      ("Profile: " ++ name p)%string. reflexivity.
Qed.

(** X4.  [ngOnInit] raises [new] and never lowers it: afterwards [new] is
    set exactly when it was set before, or the CDN list arrived and the
    route parameter is [new]. *)
Theorem ngOnInit_new_flag :
  new (self (snd run))
  = new c
    || match cdnsOf (backend env) cdnsRequest,
             paramMap_get (paramMap env) "id" with
       | Success _, Some s => (s =? "new")%string
       | _, _ => false
       end.
Proof.
  ngOnInit_paths; simpl; subst;
    rewrite ?orb_false_r, ?orb_true_r; try reflexivity;
    destruct (String.eqb_spec s "new"); try contradiction;
    rewrite ?orb_false_r; reflexivity.
Qed.

(** X5.  When the server answers the query for an accepted id with an
    empty array, the form model is overwritten with [undefined], also when
    the component held a profile; reading its name then fails and no title
    is published. *)
Theorem ngOnInit_empty_answer_clears_model (cs : list ResponseCDN)
    (s : string) :
  cdnsOf (backend env) cdnsRequest = Success cs ->
  paramMap_get (paramMap env) "id" = Some s ->
  s <> "new" ->
  JS.Number_isNaN (JS.parseInt s 10) = false ->
  profilesOf (backend env) (lookup (inl (JS.Number s))) = Success [] ->
  fst run = Throw (TypeError "name")
  /\ profile (self (snd run)) = None
  /\ new (self (snd run)) = new c
  /\ added tr (snd run)
     = [Http cdnsRequest; Http (lookup (inl (JS.Number s)))].
Proof.
  intros Hcdns Hid Hne Hguard Hempty.
  rewrite (ngOnInit_run env c tr cs Hcdns), Hid.
  destruct (String.eqb_spec s "new") as [|_]; [contradiction|].
  rewrite Hguard. cbv zeta. rewrite Hempty. simpl.
  repeat split. apply added_app.
Qed.

(** X6.  When the request for the profile itself is refused, the
    failure reaches the caller and the form model is left as it was: a
    profile that was on the form stays there, and no title is
    published. *)
Theorem ngOnInit_profile_failure_keeps_model (cs : list ResponseCDN)
    (s : string) (status : N) :
  cdnsOf (backend env) cdnsRequest = Success cs ->
  paramMap_get (paramMap env) "id" = Some s ->
  s <> "new" ->
  JS.Number_isNaN (JS.parseInt s 10) = false ->
  profilesOf (backend env) (lookup (inl (JS.Number s))) = Failure status ->
  fst run = Throw (HttpErrorResponse status)
  /\ profile (self (snd run)) = profile c
  /\ new (self (snd run)) = new c
  /\ added tr (snd run)
     = [Http cdnsRequest; Http (lookup (inl (JS.Number s)))].
Proof.
  intros Hcdns Hid Hne Hguard Hfail.
  rewrite (ngOnInit_run env c tr cs Hcdns), Hid.
  destruct (String.eqb_spec s "new") as [|_]; [contradiction|].
  rewrite Hguard. cbv zeta. rewrite Hfail. simpl.
  repeat split. apply added_app.
Qed.

End NgOnInitAlways.

(* ===================================================================== *)
(** ** Which route parameters pass the guard, and what is asked for *)
(* ===================================================================== *)

Lemma radixDigit10_digit (a : ascii) :
  JS.radixDigit 10 a
  = if isDecimalDigit a then Some (N_of_ascii a - 48)%N else None.
Proof. each_char a; reflexivity. Qed.

Lemma scanDigits_count (s : string) (acc : N) :
  fst (fst (JS.scanDigits 10 acc s)) = O <-> startsWithDigit s = false.
Proof.
  destruct s as [|a r]; simpl; [tauto|].
  rewrite radixDigit10_digit.
  destruct (isDecimalDigit a); [|tauto].
  destruct (JS.scanDigits 10 _ r) as [[k v] rest]. simpl.
  split; discriminate.
Qed.

Lemma parseInt10_NaN (s : string) :
  JS.Number_isNaN (JS.parseInt s 10)
  = negb (startsWithDigit (snd (JS.stripSign (JS.trimStart s)))).
Proof.
  unfold JS.parseInt.
  destruct (JS.stripSign (JS.trimStart s)) as [neg s1].
  cbn -[JS.scanDigits startsWithDigit JS.toDouble].
  pose proof (scanDigits_count s1 0) as H.
  destruct (JS.scanDigits 10 0 s1) as [[k v] rest].
  cbn [fst] in H. destruct k.
  - rewrite (proj1 H eq_refl). reflexivity.
  - rewrite toDouble_not_NaN.
    destruct (startsWithDigit s1); [reflexivity|].
    destruct H as [_ H]. discriminate (H eq_refl).
Qed.

Lemma numericId_not_new (s : string) : numericId s = true -> s <> "new".
Proof. intros H ->. discriminate H. Qed.

Lemma trimEnd_nonspace (a : ascii) (r : string) :
  JS.isWhiteSpace a = false ->
  JS.trimEnd (String a r) = String a (JS.trimEnd r).
Proof.
  intros H. simpl. rewrite H. now destruct (JS.trimEnd r).
Qed.

Lemma breaksNumber_facts (a : ascii) :
  breaksNumber a = true ->
  isDecimalDigit a = false /\ JS.isWhiteSpace a = false
  /\ forall l, In l ["."; "e"; "E"; "x"; "X"; "o"; "O"; "b"; "B"]%char ->
               (a =? l)%char = false.
Proof.
  unfold breaksNumber. intros H.
  apply andb_prop in H. destruct H as [H Hl].
  apply andb_prop in H. destruct H as [Hd Hw].
  apply negb_true_iff in Hd, Hw, Hl.
  repeat split; try assumption.
  intros l Hin. destruct (Ascii.eqb a l) eqn:E; [|reflexivity].
  exfalso. rewrite <- not_true_iff_false in Hl. apply Hl.
  apply existsb_exists. eauto.
Qed.

Section Suffix.

(** A numeric prefix [d], a character [a] that ends every numeric literal
    and anything [t] after it. *)
Variables (d : string) (a : ascii) (t : string).
Hypothesis d_numeric : numericId d = true.
Hypothesis a_breaks : breaksNumber a = true.

#[local] Abbreviation id := (d ++ String a t)%string.

Lemma scanDigits_prefix (ds : string) :
  allDigits ds = true ->
  forall acc,
    JS.scanDigits 10 acc (ds ++ String a t)
    = (String.length ds, decimalValue acc ds, String a t).
Proof.
  destruct (breaksNumber_facts a a_breaks) as (Ha & _ & _).
  induction ds as [|b r IH]; simpl; intros H acc.
  - now rewrite radixDigit10_digit, Ha.
  - apply andb_prop in H. destruct H as [Hb Hr].
    now rewrite (digit_radix10 b Hb), (IH Hr).
Qed.

Lemma trimEnd_prefix (ds : string) :
  allDigits ds = true ->
  JS.trimEnd (ds ++ String a t) = (ds ++ String a (JS.trimEnd t))%string.
Proof.
  destruct (breaksNumber_facts a a_breaks) as (_ & Ha & _).
  induction ds as [|b r IH]; intros H.
  - now apply trimEnd_nonspace.
  - simpl in H. apply andb_prop in H. destruct H as [Hb Hr].
    change (String b r ++ String a t)%string
      with (String b (r ++ String a t)).
    rewrite (trimEnd_nonspace b _ (digit_not_space b Hb)), (IH Hr).
    reflexivity.
Qed.

Lemma parseInt_prefix :
  JS.parseInt id 10 = JS.toDouble false (decimalValue 0 d) 0.
Proof.
  destruct d as [|b r] eqn:E; [discriminate d_numeric|].
  assert (Hb : isDecimalDigit b = true)
    by (simpl in d_numeric; apply andb_prop in d_numeric; tauto).
  unfold JS.parseInt.
  change (String b r ++ String a t)%string
    with (String b (r ++ String a t)).
  replace (JS.trimStart (String b (r ++ String a t)))
    with (String b (r ++ String a t))
    by (simpl; now rewrite (digit_not_space b Hb)).
  rewrite (digit_no_sign b _ Hb).
  cbn -[JS.scanDigits decimalValue].
  change (String b (r ++ String a t))
    with (String b r ++ String a t)%string.
  rewrite (scanDigits_prefix (String b r) d_numeric). reflexivity.
Qed.

Lemma Number_prefix : JS.Number id = JS.NaN.
Proof.
  destruct (breaksNumber_facts a a_breaks) as (Ha & Hw & Hl).
  destruct d as [|b r] eqn:E; [discriminate d_numeric|].
  assert (Hall : allDigits (String b r) = true) by exact d_numeric.
  assert (Hb : isDecimalDigit b = true)
    by (simpl in Hall; apply andb_prop in Hall; tauto).
  unfold JS.Number, JS.trim.
  replace (JS.trimStart (String b r ++ String a t))
    with (String b r ++ String a t)%string
    by (simpl; now rewrite (digit_not_space b Hb)).
  rewrite (trimEnd_prefix (String b r) Hall).
  set (t' := JS.trimEnd t).
  change (String b r ++ String a t')%string
    with (String b (r ++ String a t')).
  assert (Hprefix : JS.nonDecimalPrefixed (String b (r ++ String a t'))
                    = None).
  { unfold JS.nonDecimalPrefixed.
    destruct r as [|b' r']; simpl.
    - rewrite !Hl by (simpl; tauto). each_char b; reflexivity.
    - simpl in Hall. apply andb_prop in Hall. destruct Hall as [_ Hall].
      apply andb_prop in Hall. destruct Hall as [Hb' _].
      rewrite !(digit_not_letter b' Hb') by (simpl; tauto).
      each_char b; reflexivity. }
  rewrite Hprefix.
  unfold JS.strDecimalLiteral. rewrite (digit_no_sign b _ Hb).
  replace (String b (r ++ String a t') =? "Infinity")%string with false
    by (simpl; now rewrite (digit_not_letter b Hb "I"%char)
                 by (simpl; tauto)).
  unfold JS.unsignedDecimal.
  change (String b (r ++ String a t'))
    with (String b r ++ String a t')%string.
  assert (Hscan : JS.scanDigits 10 0 (String b r ++ String a t')
                  = (String.length (String b r),
                     decimalValue 0 (String b r), String a t')).
  { clear Hprefix. generalize 0%N.
    generalize (String b r) Hall. clear - Ha.
    induction s as [|x s IH]; simpl; intros H acc.
    - now rewrite radixDigit10_digit, Ha.
    - apply andb_prop in H. destruct H as [Hx Hs].
      now rewrite (digit_radix10 x Hx), (IH Hs). }
  rewrite Hscan.
  assert (Hdot : (a =? ".")%char = false) by (apply Hl; simpl; tauto).
  assert (He : (a =? "e")%char = false) by (apply Hl; simpl; tauto).
  assert (HE : (a =? "E")%char = false) by (apply Hl; simpl; tauto).
  replace (match String a t' with
           | String "."%char r0 =>
               JS.scanDigits 10 (decimalValue 0 (String b r)) r0
           | _ => (O, decimalValue 0 (String b r), String a t')
           end)
    with (O, decimalValue 0 (String b r), String a t').
  2:{ clear - Hdot. each_char a; try reflexivity. discriminate Hdot. }
  cbn -[decimalValue]. now rewrite He, HE.
Qed.

End Suffix.

Section Accepted.

#[local] Arguments String.append _ _ : simpl never.
#[local] Arguments JS.String_of_number _ : simpl never.
#[local] Arguments JS.parseInt _ _ : simpl never.
#[local] Arguments JS.Number _ : simpl never.
#[local] Arguments String.eqb _ _ : simpl never.

Variables (env : Env) (c : Component) (tr : list Event).
Variable cs : list ResponseCDN.
Variable s : string.

#[local] Abbreviation cdnsRequest := (mkRequest GET "cdns" [] None).
#[local] Abbreviation run := (ngOnInit env (mkWorld c tr)).

Hypothesis cdns_fetched : cdnsOf (backend env) cdnsRequest = Success cs.
Hypothesis routed : paramMap_get (paramMap env) "id" = Some s.

Lemma ngOnInit_accepted_run :
  s <> "new" ->
  JS.Number_isNaN (JS.parseInt s 10) = false ->
  exists evs,
    added tr (snd run)
    = Http cdnsRequest :: Http (lookup (inl (JS.Number s))) :: evs.
Proof.
  intros Hne Hguard.
  rewrite (ngOnInit_run env c tr cs cdns_fetched), routed.
  destruct (String.eqb_spec s "new") as [|_]; [contradiction|].
  rewrite Hguard. cbv zeta.
  destruct (profilesOf _ _) as [[|? ?]|?]; simpl; rewrite added_app;
    eexists; reflexivity.
Qed.

(** X7.  The guard of [ngOnInit] looks at the beginning of the route
    parameter only: a parameter other than [new] is refused, with the
    non-number error and before any profile is asked for, exactly when,
    past leading white space and one optional sign, it does not begin with
    a decimal digit. *)
Theorem ngOnInit_guard_reads_prefix :
  s <> "new" ->
  (fst run = Throw (Error nonNumberMessage)
   <-> startsWithDigit (snd (JS.stripSign (JS.trimStart s))) = false)
  /\ (startsWithDigit (snd (JS.stripSign (JS.trimStart s))) = false ->
      added tr (snd run) = [Http cdnsRequest]).
Proof.
  intros Hne.
  rewrite (ngOnInit_run env c tr cs cdns_fetched), routed.
  destruct (String.eqb_spec s "new") as [|_]; [contradiction|].
  rewrite parseInt10_NaN.
  destruct (startsWithDigit _); cbn [negb].
  - split; [|discriminate]. split; [|discriminate].
    cbv zeta. destruct (profilesOf _ _) as [[|? ?]|?]; discriminate.
  - split; [tauto|]. intros _. simpl. apply added_app.
Qed.

(** X8.  A numeric id is asked for in canonical form: when the route
    parameter is a string of decimal digits denoting a number of at most
    15 digits (which a double holds exactly), the profile query carries
    that number's decimal rendering, so without leading zeros; a parameter
    that is such a rendering already is sent as it is. *)
Theorem ngOnInit_query_is_canonical :
  numericId s = true ->
  (String.length (JS.digitsOfN (decimalValue 0 s)) <= 15)%nat ->
  (exists evs,
      added tr (snd run)
      = Http cdnsRequest
          :: Http (mkRequest GET "profiles"
                     [("id", JS.digitsOfN (decimalValue 0 s))] None)
          :: evs)
  /\ (forall v, s = JS.digitsOfN v -> JS.digitsOfN (decimalValue 0 s) = s).
Proof.
  intros Hnum Hlen. pose proof (digits_safe _ Hlen) as Hsafe. split.
  - destruct (ngOnInit_accepted_run (numericId_not_new s Hnum))
      as [evs Hevs].
    { rewrite (parseInt_numericId s Hnum). apply toDouble_not_NaN. }
    exists evs. rewrite Hevs. unfold lookup.
    rewrite (Number_numericId s Hnum), (toDouble_safe _ _ Hsafe).
    now rewrite (String_of_number_integer _ Hsafe).
  - intros v ->. now rewrite decimalValue_digitsOfN.
Qed.

End Accepted.

Section AcceptedSuffix.

#[local] Arguments String.append _ _ : simpl never.

Variables (env : Env) (c : Component) (tr : list Event).
Variable cs : list ResponseCDN.
Variables (d : string) (a : ascii) (t : string).

#[local] Abbreviation cdnsRequest := (mkRequest GET "cdns" [] None).

(** X9.  Digits followed by a character that ends every numeric literal,
    and by anything at all, pass the guard, which reads the digits, but
    are not a number as a whole: the profile is asked for with the id
    [NaN]. *)
Theorem ngOnInit_digits_then_text_asks_NaN :
  cdnsOf (backend env) cdnsRequest = Success cs ->
  paramMap_get (paramMap env) "id" = Some (d ++ String a t)%string ->
  numericId d = true ->
  breaksNumber a = true ->
  JS.Number_isNaN (JS.parseInt (d ++ String a t) 10) = false
  /\ JS.Number (d ++ String a t) = JS.NaN
  /\ exists evs,
       added tr (snd (ngOnInit env (mkWorld c tr)))
       = Http cdnsRequest
           :: Http (mkRequest GET "profiles" [("id", "NaN")] None)
           :: evs.
Proof.
  intros Hcdns Hid Hd Ha.
  pose proof (parseInt_prefix d a t Hd Ha) as Hp.
  pose proof (Number_prefix d a t Hd Ha) as Hn.
  split; [rewrite Hp; apply toDouble_not_NaN|]. split; [assumption|].
  assert (Hne : (d ++ String a t)%string <> "new").
  { destruct d as [|b r]; [discriminate Hd|].
    simpl in Hd. apply andb_prop in Hd. destruct Hd as [Hb _].
    intros E. injection E as -> _. discriminate Hb. }
  destruct (ngOnInit_accepted_run env c tr cs _ Hcdns Hid Hne)
    as [evs Hevs].
  { rewrite Hp. apply toDouble_not_NaN. }
  exists evs. rewrite Hevs. unfold lookup. now rewrite Hn.
Qed.

End AcceptedSuffix.

(* ===================================================================== *)
(** ** submit: failures, the missing model, and submitting again *)
(* ===================================================================== *)

Section SubmitMore.

#[local] Arguments String.append _ _ : simpl never.
#[local] Arguments JS.String_of_number _ : simpl never.

Variable env : Env.

#[local] Abbreviation putOf p :=
  (mkRequest PUT ("profiles/" ++ JS.String_of_number (JS.ofZ (id p)))
     [] (Some p)).
#[local] Abbreviation postOf p := (mkRequest POST "profiles" [] (Some p)).

Lemma submit_run (e : nat) (c : Component) (tr : list Event) :
  submit env e (mkWorld c tr)
  = let tr' := (tr ++ [PreventDefault e; StopPropagation e])%list in
    if new c then
      let rq := mkRequest POST "profiles" [] (profile c) in
      match profileOf (backend env) rq with
      | Success r =>
          (Ok tt,
           mkWorld (mkComponent false (Some r) (cdns c)) (tr' ++ [Http rq]))
      | Failure status =>
          (Throw (HttpErrorResponse status), mkWorld c (tr' ++ [Http rq]))
      end
    else
      match profile c with
      | None => (Throw (TypeError "id"), mkWorld c tr')
      | Some p =>
          match profileOf (backend env) (putOf p) with
          | Success r =>
              (Ok tt,
               mkWorld (mkComponent false (Some r) (cdns c))
                 (tr' ++ [Http (putOf p)]))
          | Failure status =>
              (Throw (HttpErrorResponse status),
               mkWorld c (tr' ++ [Http (putOf p)]))
          end
      end.
Proof.
  unfold submit, emit, this, set_profile, set_new, assign.
  unfold ProfileService.createProfile, ProfileService.updateProfile.
  run_step. rewrite <- app_assoc. simpl.
  destruct (new c) eqn:Hnew.
  - run_step. destruct (profileOf _ _); reflexivity.
  - destruct (profile c) as [p|]; [|reflexivity].
    run_step. destruct (profileOf _ _); simpl; rewrite ?Hnew; reflexivity.
Qed.

Variables (c : Component) (tr : list Event).

(** X10.  When the server refuses the request of [submit], the failure
    reaches the caller and the form is as it was: the working copy is kept
    and a record that was new is still new, so that it can be submitted
    again. *)
Theorem submit_failure_keeps_form (e : nat) (p : ResponseProfile)
    (status : N) :
  profile c = Some p ->
  profileOf (backend env) (if new c then postOf p else putOf p)
  = Failure status ->
  submit env e (mkWorld c tr)
  = (Throw (HttpErrorResponse status),
     mkWorld c
       (tr ++ [PreventDefault e; StopPropagation e;
               Http (if new c then postOf p else putOf p)])).
Proof.
  intros Hp Hr. rewrite submit_run, Hp. cbv zeta.
  destruct (new c); rewrite Hr, <- app_assoc; reflexivity.
Qed.

(** X11.  Submitting before any profile is on the form: an update fails
    on reading the id of [undefined] and sends nothing, while a creation
    sends a POST without a body. *)
Theorem submit_without_model (e : nat) :
  profile c = None ->
  (new c = false ->
   submit env e (mkWorld c tr)
   = (Throw (TypeError "id"),
      mkWorld c (tr ++ [PreventDefault e; StopPropagation e])))
  /\ (new c = true ->
      added tr (snd (submit env e (mkWorld c tr)))
      = [PreventDefault e; StopPropagation e;
         Http (mkRequest POST "profiles" [] None)]).
Proof.
  intros Hp. rewrite submit_run, Hp. cbv zeta.
  split; intros ->; [reflexivity|].
  destruct (profileOf _ _); simpl; rewrite <- app_assoc; apply added_app.
Qed.

(** X12.  A submit that runs after the creation of a new record has
    completed is an update: the first submit POSTs the working copy, and
    the submit that follows it PUTs the record the server returned, to
    that record's id.  (A second submit started while the first is still
    awaiting its response is another matter: [new] is cleared only after
    the response.) *)
Theorem submit_after_create_updates (e1 e2 : nat)
    (p r1 r2 : ResponseProfile) :
  new c = true ->
  profile c = Some p ->
  profileOf (backend env) (postOf p) = Success r1 ->
  profileOf (backend env) (putOf r1) = Success r2 ->
  (submit env e1 ;; submit env e2) (mkWorld c tr)
  = (Ok tt,
     mkWorld (mkComponent false (Some r2) (cdns c))
       (tr ++ [PreventDefault e1; StopPropagation e1; Http (postOf p);
               PreventDefault e2; StopPropagation e2; Http (putOf r1)])).
Proof.
  intros Hnew Hp H1 H2.
  rewrite bind_run, submit_run, Hnew, Hp. cbv zeta. rewrite H1.
  rewrite submit_run. cbn [new profile cdns]. cbv zeta. rewrite H2.
  now rewrite <- !app_assoc.
Qed.

End SubmitMore.

(* ===================================================================== *)
(** ** deleteType on every state *)
(* ===================================================================== *)

Lemma added_none (tr : list Event) (c : Component) :
  added tr (mkWorld c tr) = [].
Proof.
  pose proof (added_app tr [] c) as H. now rewrite app_nil_r in H.
Qed.

Section DeleteTypeMore.

#[local] Arguments String.append _ _ : simpl never.
#[local] Arguments JS.String_of_number _ : simpl never.

Variable env : Env.

#[local] Abbreviation opened p :=
  (DialogOpen "Confirm Delete"
     ("Are you sure to delete Profile " ++ name p ++ " with id "
        ++ JS.String_of_number (JS.ofZ (id p)) ++ "?")).

Lemma deleteType_closed_run (result : option bool) (c : Component)
    (tr : list Event) :
  deleteType_closed env result (mkWorld c tr)
  = if new c then
      (Ok tt, mkWorld c (tr ++ [ConsoleError "Unable to delete new type"]))
    else
      match profile c with
      | None => (Throw (TypeError "name"), mkWorld c tr)
      | Some p =>
          (Ok tt,
           mkWorld c (tr ++ opened p :: closing (backend env) p result))
      end.
Proof.
  destruct (new c) eqn:Hnew.
  - unfold deleteType_closed, deleteType, this, emit, ret.
    run_step. rewrite Hnew. destruct c; reflexivity.
  - destruct (profile c) as [p|] eqn:Hp.
    + unfold deleteType_closed, deleteType, this, emit, ret.
      run_step. rewrite Hnew.
      rewrite !bind_run, !profileField_run, Hp. simpl.
      rewrite bind_run, profileField_run, Hp. simpl.
      rewrite (afterClosed_run env result c _ p Hp).
      now rewrite <- app_assoc.
    + unfold deleteType_closed, deleteType, this.
      run_step. rewrite Hnew.
      now rewrite bind_run, profileField_run, Hp.
Qed.

Variables (c : Component) (tr : list Event) (result : option bool).

(** X13.  Deleting never touches the form: in every state and whatever
    the dialog and the server answer, [deleteType] leaves [new], [profile]
    and [cdns] as they were, sends at most one request, and that one is a
    DELETE.  After a successful delete the form still shows the deleted
    profile. *)
Theorem deleteType_keeps_form :
  let w := snd (deleteType_closed env result (mkWorld c tr)) in
  self w = c
  /\ forallb deletesOnly (added tr w) = true
  /\ (List.length (filter isRequest (added tr w)) <= 1)%nat.
Proof.
  cbv zeta. rewrite deleteType_closed_run.
  destruct (new c); [|destruct (profile c) as [p|]]; simpl.
  - rewrite added_app. simpl. repeat split. lia.
  - rewrite added_app. unfold closing.
    destruct (ProfileDetailComponent.truthy result); simpl;
      [destruct (profileOf _ _); simpl|]; repeat split; lia.
  - rewrite added_none. simpl. repeat split. lia.
Qed.

(** X14.  Asked to delete while no profile is on the form and [new] is
    not set, [deleteType] fails on reading the name of [undefined] before
    anything is shown: no dialog is opened and nothing can be
    confirmed. *)
Theorem deleteType_without_model :
  new c = false ->
  profile c = None ->
  deleteType_closed env result (mkWorld c tr)
  = (Throw (TypeError "name"), mkWorld c tr)
  /\ fst (deleteType env (mkWorld c tr)) = Throw (TypeError "name").
Proof.
  intros Hnew Hp. rewrite deleteType_closed_run, Hnew, Hp.
  split; [reflexivity|].
  unfold deleteType, this. run_step. rewrite Hnew.
  now rewrite bind_run, profileField_run, Hp.
Qed.

End DeleteTypeMore.

(* ===================================================================== *)
(** ** The form's life: open, submit, delete *)
(* ===================================================================== *)

Section Life.

#[local] Arguments String.append _ _ : simpl never.
#[local] Arguments JS.String_of_number _ : simpl never.
#[local] Arguments JS.parseInt _ _ : simpl never.
#[local] Arguments JS.Number _ : simpl never.
#[local] Arguments String.eqb _ _ : simpl never.

Variables (env : Env) (c : Component) (tr : list Event).
Variable cs : list ResponseCDN.

#[local] Abbreviation cdnsRequest := (mkRequest GET "cdns" [] None).
#[local] Abbreviation deleteOf p :=
  (mkRequest DELETE ("profiles/" ++ JS.String_of_number (JS.ofZ (id p)))
     [] None).
#[local] Abbreviation putOf p :=
  (mkRequest PUT ("profiles/" ++ JS.String_of_number (JS.ofZ (id p)))
     [] (Some p)).

Hypothesis cdns_fetched : cdnsOf (backend env) cdnsRequest = Success cs.

(** X15.  A record opened as [new] cannot be deleted until it was
    submitted: straight after [ngOnInit] a confirmed [deleteType] only
    logs, while after a successful [submit] it asks for the record the
    server created, by the id the server gave it, deletes it and
    navigates to the list. *)
Theorem new_record_deletable_once_created (e : nat)
    (r gone : ResponseProfile) :
  paramMap_get (paramMap env) "id" = Some "new" ->
  profileOf (backend env) (mkRequest POST "profiles" [] (Some (blank env)))
  = Success r ->
  profileOf (backend env) (deleteOf r) = Success gone ->
  added tr (snd ((ngOnInit env ;; deleteType_closed env (Some true))
                   (mkWorld c tr)))
  = [Http cdnsRequest; HeaderTitle "New Profile";
     ConsoleError "Unable to delete new type"]
  /\ added tr
       (snd ((ngOnInit env ;; submit env e ;;
              deleteType_closed env (Some true)) (mkWorld c tr)))
     = [Http cdnsRequest; HeaderTitle "New Profile";
        PreventDefault e; StopPropagation e;
        Http (mkRequest POST "profiles" [] (Some (blank env)));
        DialogOpen "Confirm Delete"
          ("Are you sure to delete Profile " ++ name r ++ " with id "
             ++ JS.String_of_number (JS.ofZ (id r)) ++ "?");
        Http (deleteOf r);
        Navigate ["/core/profiles"]].
Proof.
  intros Hid Hpost Hdel.
  rewrite !bind_run, (ngOnInit_run env c tr cs cdns_fetched), Hid.
  change ("new" =? "new")%string with true. cbv iota.
  split.
  - rewrite deleteType_closed_run. cbn [new].
    rewrite <- app_assoc. apply added_app.
  - rewrite bind_run, submit_run. cbn [new profile cdns]. cbv zeta.
    fold (blank env). rewrite Hpost.
    rewrite deleteType_closed_run. cbn [new profile].
    unfold closing. cbn [ProfileDetailComponent.truthy]. rewrite Hdel.
    rewrite <- !app_assoc. apply added_app.
Qed.

(** X16.  Opening an existing record and submitting it updates the
    record the server answered with: the PUT goes to the id that record
    carries, whatever the route parameter was, and its body is the record
    as loaded. *)
Theorem loaded_record_is_updated_in_place (e : nat) (s : string)
    (p r : ResponseProfile) (rest : list ResponseProfile) :
  new c = false ->
  paramMap_get (paramMap env) "id" = Some s ->
  s <> "new" ->
  JS.Number_isNaN (JS.parseInt s 10) = false ->
  profilesOf (backend env) (lookup (inl (JS.Number s)))
  = Success (p :: rest) ->
  profileOf (backend env) (putOf p) = Success r ->
  (ngOnInit env ;; submit env e) (mkWorld c tr)
  = (Ok tt,
     mkWorld (mkComponent false (Some r) (Some cs))
       (tr ++ [Http cdnsRequest; Http (lookup (inl (JS.Number s)));
               HeaderTitle ("Profile: " ++ name p);
               PreventDefault e; StopPropagation e; Http (putOf p)])).
Proof.
  intros Hnew Hid Hne Hguard Hget Hput.
  rewrite bind_run, (ngOnInit_run env c tr cs cdns_fetched), Hid.
  destruct (String.eqb_spec s "new") as [|_]; [contradiction|].
  rewrite Hguard. cbv zeta. rewrite Hget, Hnew.
  rewrite submit_run. cbn [new profile cdns]. cbv zeta. rewrite Hput.
  now rewrite <- !app_assoc.
Qed.

End Life.

(* ===================================================================== *)
(** ** One endpoint per profile id *)
(* ===================================================================== *)

Lemma digitsOfN_inj (v v' : N) :
  JS.digitsOfN v = JS.digitsOfN v' -> v = v'.
Proof.
  intros H. rewrite <- (decimalValue_digitsOfN v), H.
  apply decimalValue_digitsOfN.
Qed.

Lemma digitsOfN_unsigned (v : N) (r : string) :
  JS.digitsOfN v <> String "-" r.
Proof.
  intros H. pose proof (numericId_digitsOfN v) as Hn.
  rewrite H in Hn. discriminate Hn.
Qed.

Lemma String_of_number_ofZ_inj (i j : Z) :
  (Z.abs_N i < JS.maxSafe)%N ->
  (Z.abs_N j < JS.maxSafe)%N ->
  JS.String_of_number (JS.ofZ i) = JS.String_of_number (JS.ofZ j) ->
  i = j.
Proof.
  intros Hi Hj.
  rewrite (String_of_number_ofZ i Hi), (String_of_number_ofZ j Hj).
  unfold decimalOfZ.
  destruct (Z.ltb_spec i 0) as [Li | Li],
           (Z.ltb_spec j 0) as [Lj | Lj]; simpl; intros E.
  - injection E as E. apply digitsOfN_inj in E. lia.
  - symmetry in E. now apply digitsOfN_unsigned in E.
  - now apply digitsOfN_unsigned in E.
  - apply digitsOfN_inj in E. lia.
Qed.

(** X17.  Ids of at most 15 digits have endpoints of their own: when
    [deleteProfile] for two ids, or [updateProfile] for two profiles,
    sends its request to the same path, the ids are the same. *)
Theorem profile_endpoints_tell_ids_apart (b : Backend) (c : Component)
    (tr : list Event) (p q : ResponseProfile) :
  (String.length (JS.digitsOfN (Z.abs_N (id p))) <= 15)%nat ->
  (String.length (JS.digitsOfN (Z.abs_N (id q))) <= 15)%nat ->
  (added tr (snd (ProfileService.deleteProfile b (inl (id p))
                    (mkWorld c tr)))
   = added tr (snd (ProfileService.deleteProfile b (inl (id q))
                      (mkWorld c tr)))
   -> id p = id q)
  /\ (map (fun ev => match ev with Http rq => url rq | _ => "" end)
        (added tr (snd (ProfileService.updateProfile b (Some p)
                          (mkWorld c tr))))
      = map (fun ev => match ev with Http rq => url rq | _ => "" end)
          (added tr (snd (ProfileService.updateProfile b (Some q)
                            (mkWorld c tr))))
      -> id p = id q).
Proof.
  intros Hp Hq.
  unfold ProfileService.deleteProfile, ProfileService.updateProfile.
  rewrite !delete_run, !put_run.
  cbn [snd]. rewrite !added_app. split; intros H.
  - injection H as H'.
    apply String_of_number_ofZ_inj in H'; auto using digits_safe.
  - cbn [map url] in H. injection H as H'.
    apply String_of_number_ofZ_inj in H'; auto using digits_safe.
Qed.

(* ===================================================================== *)
(** ** The route table and the module's declarations *)
(* ===================================================================== *)

(** X18.  No entry of the route table hides another: looking a path up
    finds the very entry that declares it, so every routed component can
    be reached by its own path. *)
Theorem ROUTES_every_entry_found (r : Route) :
  In r CoreModule.ROUTES -> CoreModule.routeAt (path r) = Some r.
Proof.
  unfold CoreModule.ROUTES, CoreModule.declared. simpl.
  intros H.
  repeat (destruct H as [<- | H]; [reflexivity|]).
  contradiction.
Qed.

(** X19.  Every component the route table leads to is declared by the
    module. *)
Theorem ROUTES_components_declared (r : Route) :
  In r CoreModule.ROUTES ->
  In (inl (component r)) CoreModule.declarations.
Proof.
  unfold CoreModule.ROUTES, CoreModule.declared. simpl map.
  intros H.
  repeat (destruct H as [<- | H];
          [unfold CoreModule.declarations; cbn [component];
           repeat (first [left; reflexivity | right]) |]).
  contradiction.
Qed.

(* ===================================================================== *)
(** ** The further statements at the sample server *)
(* ===================================================================== *)

Lemma ngOnInit_cdn_failure_stops_sample :
  fst (ngOnInit (Sample.envDown "7") Sample.editing)
  = Throw (HttpErrorResponse 503)
  /\ self (snd (ngOnInit (Sample.envDown "7") Sample.editing))
     = self Sample.editing
  /\ added [] (snd (ngOnInit (Sample.envDown "7") Sample.editing))
     = [Http (mkRequest GET "cdns" [] None)].
Proof.
  exact (ngOnInit_cdn_failure_stops (Sample.envDown "7")
           (self Sample.editing) [] 503 eq_refl).
Defined.

Lemma ngOnInit_completed_has_model_sample :
  exists p cs,
    profile (self (snd (ngOnInit (Sample.env "7") Sample.fresh))) = Some p
    /\ cdns (self (snd (ngOnInit (Sample.env "7") Sample.fresh))) = Some cs.
Proof.
  exact (proj1 (ngOnInit_completed_has_model (Sample.env "7")
                  (self Sample.fresh) [] eq_refl)).
Defined.

Lemma ngOnInit_empty_answer_clears_model_sample :
  profile (self Sample.editing) = Some Sample.edge
  /\ profile (self (snd (ngOnInit (Sample.env "404") Sample.editing)))
     = None.
Proof.
  split; [reflexivity|].
  exact (proj1 (proj2
           (ngOnInit_empty_answer_clears_model (Sample.env "404")
              (self Sample.editing) [] [mkCDN 1 "cdn1"] "404"
              eq_refl eq_refl ltac:(discriminate) eq_refl eq_refl))).
Defined.

Lemma ngOnInit_guard_reads_prefix_sample :
  fst (ngOnInit (Sample.env " +profile7") Sample.fresh)
  = Throw (Error nonNumberMessage).
Proof.
  apply (proj1 (ngOnInit_guard_reads_prefix (Sample.env " +profile7")
                  (self Sample.fresh) [] [mkCDN 1 "cdn1"] " +profile7"
                  eq_refl eq_refl ltac:(discriminate))).
  reflexivity.
Defined.

Lemma ngOnInit_query_is_canonical_sample :
  exists evs,
    added [] (snd (ngOnInit (Sample.env "007") Sample.fresh))
    = Http (mkRequest GET "cdns" [] None)
        :: Http (mkRequest GET "profiles" [("id", "7")] None) :: evs.
Proof.
  exact (proj1 (ngOnInit_query_is_canonical (Sample.env "007")
                  (self Sample.fresh) [] [mkCDN 1 "cdn1"] "007"
                  eq_refl eq_refl eq_refl
                  (proj1 (Nat.leb_le 1 15) eq_refl))).
Defined.

Lemma ngOnInit_digits_then_text_asks_NaN_sample :
  exists evs,
    added [] (snd (ngOnInit (Sample.env "8-mid") Sample.fresh))
    = Http (mkRequest GET "cdns" [] None)
        :: Http (mkRequest GET "profiles" [("id", "NaN")] None) :: evs.
Proof.
  exact (proj2 (proj2
           (ngOnInit_digits_then_text_asks_NaN (Sample.env "8-mid")
              (self Sample.fresh) [] [mkCDN 1 "cdn1"] "8" "-"%char "mid"
              eq_refl eq_refl eq_refl eq_refl))).
Defined.

Lemma submit_failure_keeps_form_sample :
  submit (Sample.envDown "new") 0 Sample.creating
  = (Throw (HttpErrorResponse 503),
     mkWorld (self Sample.creating)
       [PreventDefault 0; StopPropagation 0;
        Http (mkRequest POST "profiles" [] (Some Sample.draft))]).
Proof.
  exact (submit_failure_keeps_form (Sample.envDown "new")
           (self Sample.creating) [] 0 Sample.draft 503 eq_refl eq_refl).
Defined.

Lemma submit_without_model_sample :
  submit (Sample.env "7") 0 Sample.fresh
  = (Throw (TypeError "id"),
     mkWorld (self Sample.fresh) [PreventDefault 0; StopPropagation 0]).
Proof.
  exact (proj1 (submit_without_model (Sample.env "7") (self Sample.fresh)
                  [] 0 eq_refl) eq_refl).
Defined.

Lemma submit_after_create_updates_sample :
  (submit (Sample.env "new") 0 ;; submit (Sample.env "new") 1)
    Sample.creating
  = (Ok tt,
     mkWorld
       (mkComponent false
          (Some (mkProfile (-1) "" "a draft" 9 1700000002 "DRAFT" false
                   ATS_PROFILE))
          (Some [mkCDN 1 "cdn1"]))
       [PreventDefault 0; StopPropagation 0;
        Http (mkRequest POST "profiles" [] (Some Sample.draft));
        PreventDefault 1; StopPropagation 1;
        Http (mkRequest PUT "profiles/9" []
                (Some (mkProfile (-1) "" "a draft" 9 1700000002 "DRAFT"
                         false ATS_PROFILE)))]).
Proof.
  exact (submit_after_create_updates (Sample.env "new")
           (self Sample.creating) [] 0 1 Sample.draft
           (mkProfile (-1) "" "a draft" 9 1700000002 "DRAFT" false
              ATS_PROFILE)
           (mkProfile (-1) "" "a draft" 9 1700000002 "DRAFT" false
              ATS_PROFILE)
           eq_refl eq_refl eq_refl eq_refl).
Defined.

Lemma deleteType_without_model_sample :
  deleteType_closed (Sample.env "7") (Some true) Sample.fresh
  = (Throw (TypeError "name"), Sample.fresh).
Proof.
  exact (proj1 (deleteType_without_model (Sample.env "7")
                  (self Sample.fresh) [] (Some true) eq_refl eq_refl)).
Defined.

Lemma new_record_deletable_once_created_sample :
  added []
    (snd ((ngOnInit (Sample.env "new") ;; submit (Sample.env "new") 0 ;;
           deleteType_closed (Sample.env "new") (Some true))
            Sample.fresh))
  = [Http (mkRequest GET "cdns" [] None); HeaderTitle "New Profile";
     PreventDefault 0; StopPropagation 0;
     Http (mkRequest POST "profiles" []
             (Some (mkProfile (-1) "" "" (-1) 1700000003 "" false
                      ATS_PROFILE)));
     DialogOpen "Confirm Delete"
       "Are you sure to delete Profile  with id 9?";
     Http (mkRequest DELETE "profiles/9" [] None);
     Navigate ["/core/profiles"]].
Proof.
  exact (proj2 (new_record_deletable_once_created (Sample.env "new")
                  (self Sample.fresh) [] [mkCDN 1 "cdn1"] eq_refl 0
                  (mkProfile (-1) "" "" 9 1700000002 "" false ATS_PROFILE)
                  Sample.edge eq_refl eq_refl eq_refl)).
Defined.

Lemma loaded_record_is_updated_in_place_sample :
  (ngOnInit (Sample.env "8") ;; submit (Sample.env "8") 0) Sample.fresh
  = (Ok tt,
     mkWorld (mkComponent false (Some Sample.mid) (Some [mkCDN 1 "cdn1"]))
       [Http (mkRequest GET "cdns" [] None);
        Http (mkRequest GET "profiles" [("id", "8")] None);
        HeaderTitle "Profile: MID";
        PreventDefault 0; StopPropagation 0;
        Http (mkRequest PUT "profiles/8" [] (Some Sample.mid))]).
Proof.
  exact (loaded_record_is_updated_in_place (Sample.env "8")
           (self Sample.fresh) [] [mkCDN 1 "cdn1"] eq_refl 0 "8"
           Sample.mid Sample.mid [] eq_refl eq_refl ltac:(discriminate)
           eq_refl eq_refl eq_refl).
Defined.

Lemma profile_endpoints_tell_ids_apart_sample :
  added [] (snd (ProfileService.deleteProfile Sample.server (inl 7%Z)
                   Sample.fresh))
  <> added [] (snd (ProfileService.deleteProfile Sample.server (inl 8%Z)
                      Sample.fresh)).
Proof.
  intros H.
  apply (proj1 (profile_endpoints_tell_ids_apart Sample.server
                  (self Sample.fresh) [] Sample.edge Sample.mid
                  (proj1 (Nat.leb_le 1 15) eq_refl)
                  (proj1 (Nat.leb_le 1 15) eq_refl))) in H.
  discriminate H.
Defined.

Lemma ROUTES_every_entry_found_sample :
  CoreModule.routeAt "deliveryservice/:id/invalidation-jobs"
  = Some (mkRoute InvalidationJobsComponent
            "deliveryservice/:id/invalidation-jobs" [AuthenticatedGuard]).
Proof.
  apply (ROUTES_every_entry_found
           (mkRoute InvalidationJobsComponent
              "deliveryservice/:id/invalidation-jobs"
              [AuthenticatedGuard])).
  unfold CoreModule.ROUTES, CoreModule.declared. simpl. tauto.
Defined.

Lemma ROUTES_components_declared_sample :
  In (inl CDNDetailComponent) CoreModule.declarations.
Proof.
  apply (ROUTES_components_declared
           (mkRoute CDNDetailComponent "cdns/:id" [AuthenticatedGuard])).
  unfold CoreModule.ROUTES, CoreModule.declared. simpl. tauto.
Defined.

Lemma ngOnInit_profile_failure_keeps_model_sample :
  profile
    (self (snd (ngOnInit
                  (mkEnv [("id", "7")] 0
                     (mkBackend (fun _ => Failure 500)
                        (profileOf Sample.server)
                        (cdnsOf Sample.server)))
                  Sample.editing)))
  = Some Sample.edge.
Proof.
  exact (proj1 (proj2
           (ngOnInit_profile_failure_keeps_model
              (mkEnv [("id", "7")] 0
                 (mkBackend (fun _ => Failure 500)
                    (profileOf Sample.server) (cdnsOf Sample.server)))
              (self Sample.editing) [] [mkCDN 1 "cdn1"] "7" 500
              eq_refl eq_refl ltac:(discriminate) eq_refl eq_refl))).
Defined.

(* ===================================================================== *)
(** ** Where the statements as first written fail *)
(* ===================================================================== *)

(** C3, as stated, fails.  The numeric id 404 is asked for, but the
    server has no such profile: no record is on the form and no title is
    published.  The numeric id 9007199254740993 is not a binary64 value:
    even at a server that has a profile for every query, the profile with
    that id is not what is asked for. *)
Lemma ngOnInit_numeric_id_not_loaded :
  (numericId "404" = true
   /\ ~ loadsRecordOf (Sample.env "404") Sample.fresh "404")
  /\ (numericId "9007199254740993" = true
      /\ ~ loadsRecordOf (Sample.envGenerous "9007199254740993")
             Sample.fresh "9007199254740993").
Proof.
  split; (split; [reflexivity|]).
  - intros [_ (p & Hp & _)]. vm_compute in Hp. discriminate Hp.
  - intros [Hin _]. vm_compute in Hin.
    destruct Hin as [H | [H | [H | []]]]; discriminate H.
Qed.

(** What is asked for instead: the nearest binary64 value. *)
Lemma ngOnInit_numeric_id_rounded :
  added [] (snd (ngOnInit (Sample.envGenerous "9007199254740993")
                   Sample.fresh))
  = [Http (mkRequest GET "cdns" [] None);
     Http (mkRequest GET "profiles" [("id", "9007199254740992")] None);
     HeaderTitle "Profile: EDGE"].
Proof. vm_compute. reflexivity. Qed.

(** C8, as stated, fails: the id [12x] is not one the guard refuses, and
    [ngOnInit] throws all the same, on reading the name of the profile
    that the empty answer to [id=NaN] left undefined. *)
Lemma ngOnInit_accepted_id_still_throws :
  ~ ((exists e, fst (ngOnInit (Sample.env "12x") Sample.fresh) = Throw e)
     <-> refused (paramMap_get (paramMap (Sample.env "12x")) "id")).
Proof.
  intros [H _].
  assert (Hthrown : exists e,
             fst (ngOnInit (Sample.env "12x") Sample.fresh) = Throw e).
  { exists (TypeError "name"). vm_compute. reflexivity. }
  destruct (H Hthrown) as [_ HNaN]. vm_compute in HNaN.
  discriminate HNaN.
Qed.

Lemma ProfileService_pass_through_sample :
  ProfileService.updateProfile Sample.server (Some Sample.edge)
    Sample.fresh
  = (Ok Sample.edge,
     mkWorld (self Sample.fresh)
       [Http (mkRequest PUT "profiles/7" [] (Some Sample.edge))])
  /\ snd (ProfileService.deleteProfile Sample.server (inl (-8)%Z)
            Sample.fresh)
     = mkWorld (self Sample.fresh)
         [Http (mkRequest DELETE "profiles/-8" [] None)]
  /\ snd (ProfileService.getProfiles_one Sample.server (inl (JS.ofZ 8))
            Sample.fresh)
     = mkWorld (self Sample.fresh)
         [Http (mkRequest GET "profiles" [("id", "8")] None)].
Proof.
  pose proof (ProfileService_pass_through Sample.server
                (self Sample.fresh) [])
    as (_ & _ & _ & Hput & _ & Hid & _).
  split; [exact (Hput Sample.edge)|].
  split.
  - exact (proj2 (Hid (-8)%Z eq_refl)).
  - exact (proj1 (Hid 8%Z eq_refl)).
Defined.
